(** * storevirtual-installer: the Deployer of the VSA appliance

    A shallow embedding of [storevirtual_installer/deployer.py] and of the
    exception classes of [storevirtual_installer/vsa_excs.py].

    - Python values (everything the program handles is JSON shaped) are the
      type [pyval]; dictionaries are [gmap string pyval].
    - The instance attributes of a [Deployer] are a finite table from
      attribute names to values; reading an attribute that was never assigned
      raises [AttributeError], as in Python.
    - The outside world (files, the shell, the libvirt connection, the clock,
      the ioctl for the netmask, the netaddr library) is an oracle, [host],
      whose answers may depend on everything that happened before; every
      request is recorded in the [trace] of the state, newest event first.
    - Methods are functions in a state-and-exception monad [M]; [sys.exit]
      is the outcome [Exit], which [except Exception] does not catch.
    - Logging and printing have no effect on control flow and are left out;
      floating point JSON numbers are not represented. *)

From Stdlib Require Import ZArith Lia Ascii.
From stdpp Require Import gmap strings list fin_maps pretty.

#[local] Open Scope Z_scope.

(** ** Python values *)

#[warnings="-register-all"]
Inductive pyval :=
| PNone
| PBool (b : bool)
| PInt (z : Z)
| PStr (s : string)
| PList (l : list pyval)
| PDict (d : gmap string pyval).

(** ** vsa_excs.py, and the built-in exceptions the deployer can meet *)

Module vsa_excs.

Inductive exc :=
(* vsa_excs.py *)
| JsonParseException | DiskFileError | NetmaskRetrieveFailed
| ComputeGatewayFailed | InvalidInputException | DefaultJSONCreationFailed
| DeviceValidationFailed | DefaultJSONInitializationFailed
| BridgeCreationFailed | StoragePoolCreationFailed | VMCreateFailed
| StartVMFailed | DomainDestroyFailed | InstallVSAfailed | PoolDestroyFailed
| NetworkDestroyFailed | PersistConfigFailed | UpdateConfigFailed
| DestroyFailed | VsaStatusFailed
(* built-in and library exceptions, all subclasses of Exception *)
| IOError | OSError | ValueError | KeyError | IndexError | TypeError
| AttributeError | AddrFormatError | libvirtError.

#[global] Instance exc_eq_dec : EqDecision exc.
Proof. solve_decision. Defined.

(** The class attribute [message] of each class of vsa_excs.py. *)
Definition class_message (e : exc) : option string :=
  match e with
  | JsonParseException => Some "An unknown exception occurred."
  | DiskFileError => Some "An unknown exception in reading file"
  | NetmaskRetrieveFailed => Some "An unknown exception during netmask retrieve"
  | ComputeGatewayFailed => Some "An unknown exception during compute gateway"
  | InvalidInputException => Some "An unknown exception while reading input file"
  | DefaultJSONCreationFailed => Some "An unknown exception while creating default json"
  | DeviceValidationFailed => Some "Invalid disk entries present"
  | DefaultJSONInitializationFailed => Some "An unknown exception while parsing default Json"
  | BridgeCreationFailed => Some "An unknown exception at network creation"
  | StoragePoolCreationFailed => Some "An unknown exception while parsing default Json"
  | VMCreateFailed => Some "An unknown exception for create VM "
  | StartVMFailed => Some "An unknown exception while starting VM "
  | DomainDestroyFailed => Some "An unknown exception while destroy VSA VM"
  | InstallVSAfailed => Some "An unknown exception while installing VSA"
  | PoolDestroyFailed => Some "An unknown exception while destroy storage pool"
  | NetworkDestroyFailed => Some "An unknown exception while destroy vsa network"
  | PersistConfigFailed => Some "An unknown exception while setting up ephemeral configuration"
  | UpdateConfigFailed => Some "An unknown exception while updating VSA configuration"
  | DestroyFailed => Some "An unknown exception while destroying VSA setup"
  | VsaStatusFailed => Some "An unknown exception while getting the status of VSA VM"
  | _ => None
  end.

(** [e.message] for an exception of class [e] built with the argument [arg]:
    the class attribute for the classes above, the empty string for the
    environment errors raised with (errno, strerror), the argument
    otherwise. *)
Definition message (e : exc) (arg : string) : string :=
  match class_message e with
  | Some m => m
  | None => match e with IOError | OSError => "" | _ => arg end
  end.

End vsa_excs.
Export vsa_excs.

(** ** Outcomes of a computation *)

Inductive outcome (A : Type) :=
| Ok (a : A)
| Raise (e : exc) (arg : string)
| Exit (code : Z).
Arguments Ok {A} a.
Arguments Raise {A} e arg.
Arguments Exit {A} code.

Definition obind {A B} (o : outcome A) (k : A -> outcome B) : outcome B :=
  match o with
  | Ok a => k a
  | Raise e arg => Raise e arg
  | Exit c => Exit c
  end.

Notation "'let?' x := m 'in' k" := (obind m (fun x => k))
  (at level 10, x name, m at level 100, k at level 200).

(** ** The primitive operations of Python the deployer relies on *)

Module Py.

Definition type_name (v : pyval) : string :=
  match v with
  | PNone => "NoneType" | PBool _ => "bool" | PInt _ => "int"
  | PStr _ => "str" | PList _ => "list" | PDict _ => "dict"
  end.

(** Truth value of an object. *)
Definition truthy (v : pyval) : bool :=
  match v with
  | PNone => false
  | PBool b => b
  | PInt z => negb (z =? 0)
  | PStr s => negb (String.eqb s "")
  | PList l => match l with [] => false | _ => true end
  | PDict d => negb (bool_decide (size d = 0%nat))
  end.

(** [v == s] for a string literal [s]. *)
Definition eq_str (v : pyval) (s : string) : bool :=
  match v with PStr t => String.eqb t s | _ => false end.

(** [v == z] for an integer literal [z] ([True] and [False] are 1 and 0). *)
Definition eq_int (v : pyval) (z : Z) : bool :=
  match v with
  | PInt n => n =? z
  | PBool b => (if b then 1 else 0) =? z
  | _ => false
  end.

(** [v > z] for an integer literal [z]; Python 2 orders [None] below the
    numbers and every other object above them. *)
Definition gt_int (v : pyval) (z : Z) : bool :=
  match v with
  | PNone => false
  | PBool b => (if b then 1 else 0) >? z
  | PInt n => n >? z
  | PStr _ | PList _ | PDict _ => true
  end.

(** [v in l] where [l] is a list of strings. *)
Definition in_strs (v : pyval) (l : list string) : bool :=
  existsb (eq_str v) l.

(** [str(z)] *)
Definition str_int (z : Z) : string := pretty z.

(** [s + v] for a string [s]. *)
Definition str_add (s : string) (v : pyval) : outcome string :=
  match v with
  | PStr t => Ok (s +:+ t)
  | _ => Raise TypeError ("cannot concatenate 'str' and '" +:+ type_name v +:+ "' objects")
  end.

(** [v + s] for a string [s]. *)
Definition add_str (v : pyval) (s : string) : outcome string :=
  match v with
  | PStr t => Ok (t +:+ s)
  | _ => Raise TypeError ("unsupported operand type(s) for +: '" +:+ type_name v +:+ "' and 'str'")
  end.

(** [v += z] for an integer [z]. *)
Definition iadd_int (v : pyval) (z : Z) : outcome pyval :=
  match v with
  | PInt n => Ok (PInt (n + z))
  | PBool b => Ok (PInt ((if b then 1 else 0) + z))
  | _ => Raise TypeError ("unsupported operand type(s) for +=: '" +:+ type_name v +:+ "' and 'int'")
  end.

(** ["%s" % v]; the text of a container is not spelled out. *)
Definition format (v : pyval) : string :=
  match v with
  | PNone => "None"
  | PBool b => if b then "True" else "False"
  | PInt z => str_int z
  | PStr s => s
  | PList _ => "[...]"
  | PDict _ => "{...}"
  end.

Fixpoint chars (s : string) : list pyval :=
  match s with
  | EmptyString => []
  | String c s' => PStr (String c EmptyString) :: chars s'
  end.

(** The elements a [for] loop, [any] or [list +=] sees. *)
Definition iter (v : pyval) : outcome (list pyval) :=
  match v with
  | PList l => Ok l
  | PStr s => Ok (chars s)
  | PDict d => Ok (PStr <$> (map_to_list d).*1)
  | _ => Raise TypeError ("'" +:+ type_name v +:+ "' object is not iterable")
  end.

(** [any(v)] *)
Definition any (v : pyval) : outcome bool :=
  let? l := iter v in Ok (existsb truthy l).

(** [len(v)] *)
Definition len (v : pyval) : outcome Z :=
  match v with
  | PList l => Ok (Z.of_nat (length l))
  | PStr s => Ok (Z.of_nat (String.length s))
  | PDict d => Ok (Z.of_nat (size d))
  | _ => Raise TypeError ("object of type '" +:+ type_name v +:+ "' has no len()")
  end.

(** [l[i]] on a list, negative indices counting from the end. *)
Definition index {A} (l : list A) (i : Z) : option A :=
  if 0 <=? i then l !! Z.to_nat i
  else if 0 <=? Z.of_nat (length l) + i then l !! Z.to_nat (Z.of_nat (length l) + i)
  else None.

(** [v[i]] for an integer [i]. *)
Definition getitem_int (v : pyval) (i : Z) : outcome pyval :=
  match v with
  | PList l =>
      match index l i with
      | Some x => Ok x
      | None => Raise IndexError "list index out of range"
      end
  | PStr s =>
      match index (chars s) i with
      | Some x => Ok x
      | None => Raise IndexError "string index out of range"
      end
  | PDict _ => Raise KeyError (str_int i)
  | _ => Raise TypeError ("'" +:+ type_name v +:+ "' object has no attribute '__getitem__'")
  end.

(** [v[k]] for a string [k]. *)
Definition getitem (v : pyval) (k : string) : outcome pyval :=
  match v with
  | PDict d =>
      match d !! k with
      | Some x => Ok x
      | None => Raise KeyError k
      end
  | PList _ => Raise TypeError "list indices must be integers, not str"
  | PStr _ => Raise TypeError "string indices must be integers, not str"
  | _ => Raise TypeError ("'" +:+ type_name v +:+ "' object has no attribute '__getitem__'")
  end.

(** [v[k] = x] for a string [k]: the updated object. *)
Definition setitem (v : pyval) (k : string) (x : pyval) : outcome pyval :=
  match v with
  | PDict d => Ok (PDict (<[k := x]> d))
  | PList _ => Raise TypeError "list indices must be integers, not str"
  | _ => Raise TypeError ("'" +:+ type_name v +:+ "' object does not support item assignment")
  end.

(** [s.split(' ')]: one field per separator, never an empty list. *)
Fixpoint split (sep : Ascii.ascii) (s : string) : list string :=
  match s with
  | EmptyString => [EmptyString]
  | String c s' =>
      if Ascii.eqb c sep then EmptyString :: split sep s'
      else match split sep s' with
           | w :: ws => String c w :: ws
           | [] => [String c EmptyString]
           end
  end.

(** [re.sub(r'%([^%]+)%', lambda m: substitutions[m.group(1)], s)].
    [key] is [None] outside a placeholder and [Some k] after an opening
    percent sign followed by the characters [k]. *)
Fixpoint re_sub (substitutions : gmap string pyval) (key : option string)
    (s : string) : outcome string :=
  match s with
  | EmptyString =>
      match key with
      | None => Ok EmptyString
      | Some k => Ok (String "%"%char k)
      end
  | String c s' =>
      match key with
      | None =>
          if Ascii.eqb c "%"%char then re_sub substitutions (Some EmptyString) s'
          else let? r := re_sub substitutions None s' in Ok (String c r)
      | Some k =>
          if Ascii.eqb c "%"%char then
            if String.eqb k "" then
              let? r := re_sub substitutions (Some EmptyString) s' in
              Ok (String "%"%char r)
            else
              match substitutions !! k with
              | None => Raise KeyError k
              | Some (PStr v) =>
                  let? r := re_sub substitutions None s' in Ok (v +:+ r)
              | Some _ => Raise TypeError "expected string or buffer"
              end
          else re_sub substitutions (Some (k +:+ String c EmptyString)) s'
      end
  end.

End Py.

(** ** The outside world *)

(** What [open(path)] followed by [json.load] gives. *)
Inductive file_result :=
| IOErr (strerror : string)        (* missing or unreadable: IOError *)
| NotJson (why : string)           (* json.load raises ValueError *)
| Parsed (v : pyval).

(** Calls on the libvirt connection and on the objects it hands out. *)
Inductive virt_call :=
| lookupByName (name : string)
| domain_state (name : string)
| domain_destroy (name : string)
| domain_undefine (name : string)
| networkLookupByName (name : string)
| network_destroy (name : string)
| network_undefine (name : string)
| storagePoolLookupByName (name : string)
| pool_destroy (name : string)
| pool_undefine (name : string).

Inductive event :=
| EvOpenJson (path : string)                   (* open(path), json.load *)
| EvReadText (path : string)                   (* open(path, 'r').read() *)
| EvOpenW (path : string)                      (* open(path, 'w') *)
| EvWriteJson (path : string) (doc : pyval)    (* write(json.dumps(doc)) *)
| EvWriteText (path : string) (text : string)  (* write(text) *)
| EvExists (path : string)                     (* os.path.exists *)
| EvMakedirs (path : string)                   (* os.makedirs *)
| EvRmtree (path : string)                     (* shutil.rmtree *)
| EvSh (op : string) (rc : Z)                  (* subprocess.check_output *)
| EvProbe (script : string)                    (* Popen(script).stdout.read() *)
| EvIoctl (ifname : pyval)                     (* SIOCGIFNETMASK *)
| EvUtcnow                                     (* datetime.utcnow() *)
| EvVirt (c : virt_call) (ok : bool)
| EvLastError.                                 (* libvirt.virGetLastError() *)

(** The answers of the outside world, given the events so far. *)
Record host := {
  h_open_json : list event -> string -> file_result;
  h_read_text : list event -> string -> option string;  (* None: IOError *)
  h_open_w : list event -> string -> bool;              (* false: IOError *)
  h_write : list event -> string -> bool;               (* false: IOError *)
  h_exists : list event -> string -> bool;
  h_makedirs : list event -> string -> bool;            (* false: OSError *)
  h_sh : list event -> string -> Z;                     (* exit status *)
  h_probe : list event -> string -> option string;      (* None: OSError *)
  h_netmask : list event -> pyval -> option string;     (* None: IOError *)
  h_gateway : string -> option string;   (* str(IPNetwork(s).network + 1) *)
  h_utcnow : list event -> string;                      (* str(utcnow()) *)
  h_virt : list event -> virt_call -> bool;             (* false: libvirtError *)
  h_state : list event -> string -> Z;                  (* state()[0] *)
  h_last_error : list event -> option Z                 (* err[0], if any *)
}.

(** ** The Deployer object *)

Inductive attr :=
| is_AO_enabled | disk_file | CONFIG_DIR | VSA_PACKAGE | VSA_INSTALLER
| VSA_NETWORK_CONFIG_FILE | VSA_CONFIG_FILE
| vsa_status | vsa_disks | tiered_disks | disks | total_disks
| tier0List | tier1List
| vsa_config_data | v_network_name | host_name | os_image_storagepool
| pool_location | autostart
| network_config_data | v_bridge_name | v_bridge_ip | v_interface | vsa_ip
| v_netmask | v_gateway.

(** [attr_beq] compares two attribute names. *)
Scheme Equality for attr.

Record state := {
  attrs : attr -> option pyval;
  trace : list event
}.

(** ** The monad of methods *)

Definition M (A : Type) : Type := state -> outcome A * state.

Definition ret {A} (a : A) : M A := fun s => (Ok a, s).

Definition bind {A B} (m : M A) (k : A -> M B) : M B :=
  fun s =>
    match m s with
    | (Ok a, s') => k a s'
    | (Raise e arg, s') => (Raise e arg, s')
    | (Exit c, s') => (Exit c, s')
    end.

Notation "'let*' x := m 'in' k" := (bind m (fun x => k))
  (at level 10, x name, m at level 100, k at level 200).

Definition lift {A} (o : outcome A) : M A := fun s => (o, s).

Definition raise {A} (e : exc) (arg : string) : M A :=
  fun s => (Raise e arg, s).

(** [sys.exit(code)] *)
Definition sys_exit {A} (code : Z) : M A := fun s => (Exit code, s).

(** [try: m  except Exception as e: handler e] (a handler for one class
    re-raises the others, see [only]). *)
Definition try_except {A} (m : M A) (handler : exc -> string -> M A) : M A :=
  fun s =>
    match m s with
    | (Raise e arg, s') => handler e arg s'
    | r => r
    end.

(** [try: m  except: handler], which also catches [SystemExit]. *)
Definition try_except_bare {A} (m : M A) (handler : M A) : M A :=
  fun s =>
    match m s with
    | (Ok a, s') => (Ok a, s')
    | (_, s') => handler s'
    end.

Definition only {A} (cls : exc) (handler : exc -> string -> M A)
    : exc -> string -> M A :=
  fun e arg => if decide (e = cls) then handler e arg else raise e arg.

Definition getattr (a : attr) : M pyval :=
  fun s =>
    match attrs s a with
    | Some v => (Ok v, s)
    | None => (Raise AttributeError "Deployer instance has no such attribute", s)
    end.

Definition setattr (a : attr) (v : pyval) : M unit :=
  fun s =>
    (Ok tt, {| attrs := fun b => if attr_beq b a then Some v else attrs s b;
               trace := trace s |}).

(** Ask the outside world, with the events so far. *)
Definition ask {A} (q : list event -> A) : M A :=
  fun s => (Ok (q (trace s)), s).

Definition emit (ev : event) : M unit :=
  fun s => (Ok tt, {| attrs := attrs s; trace := ev :: trace s |}).

(** An argument that the called library needs to be a string. *)
Definition as_path (v : pyval) : M string :=
  match v with
  | PStr p => ret p
  | _ => raise TypeError ("coercing to Unicode: need string or buffer, "
                          +:+ Py.type_name v +:+ " found")
  end.

(** ** class Deployer *)

Module Deployer.

(** [__init__]: the environment variables are looked up in [environ]. *)
Definition __init__ (environ : gmap string string)
    (is_AO_capable disk_file_arg : pyval) : outcome state :=
  let env := fun k => match environ !! k with
                      | Some v => Ok (PStr v)
                      | None => Raise KeyError k
                      end in
  let? config_dir := env "VSA_CONFIG_DIR" in
  let? package := env "VSA_IMAGE_PATH" in
  let? installer := env "VSA_INSTALLER" in
  let? network_config := env "VSA_NETWORK_CONFIG_FILE" in
  let? config := env "VSA_CONFIG_FILE" in
  Ok {| attrs := fun a =>
          match a with
          | is_AO_enabled => Some is_AO_capable
          | disk_file => Some disk_file_arg
          | CONFIG_DIR => Some config_dir
          | VSA_PACKAGE => Some package
          | VSA_INSTALLER => Some installer
          | VSA_NETWORK_CONFIG_FILE => Some network_config
          | VSA_CONFIG_FILE => Some config
          | _ => None
          end;
        trace := [] |}.

Section Methods.

Variable H : host.

(** One call on the libvirt connection. *)
Definition virt (c : virt_call) : M unit :=
  let* ok := ask (fun tr => h_virt H tr c) in
  let* _ := emit (EvVirt c ok) in
  if ok then ret tt else raise libvirtError "libvirt call failed".

(** [with open(path, 'w') as file_desc: ...] up to the first write. *)
Definition open_w (path : string) : M unit :=
  let* ok := ask (fun tr => h_open_w H tr path) in
  let* _ := emit (EvOpenW path) in
  if ok then ret tt else raise IOError "cannot open for writing".

Definition write (path : string) (ev : event) : M unit :=
  let* ok := ask (fun tr => h_write H tr path) in
  let* _ := emit ev in
  if ok then ret tt else raise IOError "write failed".

Definition _do_operation (op : string) (need_output : bool) : M Z :=
  let* rc := ask (fun tr => h_sh H tr op) in
  let* _ := emit (EvSh op rc) in
  if rc =? 0 then ret 0     (* check_output returned *)
  else ret rc.              (* CalledProcessError: e.returncode *)

Definition _read_json (file_path : pyval) : M pyval :=
  try_except
    (let* path := as_path file_path in
     let* r := ask (fun tr => h_open_json H tr path) in
     let* _ := emit (EvOpenJson path) in
     match r with
     | IOErr strerror => raise IOError strerror
     | NotJson why => raise ValueError why
     | Parsed config_data => ret config_data
     end)
    (only IOError (fun e arg =>
       let msg := "Failed to load " +:+ Py.format file_path +:+ " "
                  +:+ message e arg in
       raise JsonParseException msg)).

(** [self.<a>[k1][k2]] *)
Definition field2 (a : attr) (k1 k2 : string) : M pyval :=
  let* d := getattr a in
  lift (let? c := Py.getitem d k1 in Py.getitem c k2).

Definition _read_configuration_input (config_file : pyval) : M unit :=
  let* data := _read_json config_file in
  let* _ := setattr vsa_config_data data in
  let* v := field2 vsa_config_data "vsa_config" "network_name" in
  let* _ := setattr v_network_name v in
  let* v := field2 vsa_config_data "vsa_config" "hostname" in
  let* _ := setattr host_name v in
  let* v := field2 vsa_config_data "vsa_config" "os_image_storagepool" in
  let* _ := setattr os_image_storagepool v in
  let* v := field2 vsa_config_data "vsa_config" "os_image_dir" in
  let* _ := setattr pool_location v in
  let* v := field2 vsa_config_data "vsa_config" "autostart" in
  let* _ := setattr autostart (PBool (Py.eq_str v "True")) in
  let* loc := getattr pool_location in
  let* p := as_path loc in
  let* present := ask (fun tr => h_exists H tr p) in
  let* _ := emit (EvExists p) in
  if present then ret tt
  else
    let* loc := getattr pool_location in
    let* p := as_path loc in
    let* ok := ask (fun tr => h_makedirs H tr p) in
    let* _ := emit (EvMakedirs p) in
    if ok then ret tt else raise OSError "makedirs failed".

Definition _report_libvirt_error : M unit :=
  let* err := ask (h_last_error H) in
  let* _ := emit EvLastError in
  match err with
  | None => raise TypeError "'NoneType' object has no attribute '__getitem__'"
  | Some code => if code =? 42 then ret tt else raise VsaStatusFailed ""
  end.

Definition _get_vsa_vm_status : M pyval :=
  try_except_bare
    (let* name := getattr host_name in
     let* n := as_path name in
     let* _ := virt (lookupByName n) in
     let* _ := virt (domain_state n) in
     let* code := ask (fun tr => h_state H tr n) in
     ret (PInt code))
    (let* _ := _report_libvirt_error in
     ret (PInt 0)).

Definition _pre_install_vsa : M unit :=
  let* config_file := getattr VSA_CONFIG_FILE in
  let* _ := _read_configuration_input config_file in
  let* status := _get_vsa_vm_status in
  let* _ := setattr vsa_status status in
  let* st := getattr vsa_status in
  if Py.eq_int st 1 || Py.eq_int st 3 then sys_exit 0 else ret tt.

Definition _get_netmask_from_interface : M pyval :=
  try_except
    (let* name := getattr v_bridge_name in
     let* r := ask (fun tr => h_netmask H tr name) in
     let* _ := emit (EvIoctl name) in
     match r with
     | Some netmask => ret (PStr netmask)
     | None => raise IOError "No such device"
     end)
    (fun e arg =>
       let* iface := getattr v_interface in
       let msg := "Cannot retrieve netmask from interface "
                  +:+ Py.format iface +:+ "  " +:+ message e arg in
       raise NetmaskRetrieveFailed msg).

Definition _compute_gateway : M pyval :=
  try_except
    (let* ip := getattr vsa_ip in
     let* with_slash := lift (Py.add_str ip "/") in
     let* mask := getattr v_netmask in
     let* cidr := lift (Py.str_add with_slash mask) in
     match h_gateway H cidr with
     | Some gateway => ret (PStr gateway)
     | None => raise AddrFormatError "invalid IPNetwork"
     end)
    (fun e arg =>
       raise ComputeGatewayFailed
             ("Computing gateway details failed " +:+ message e arg)).

Definition _read_network_input : M unit :=
  let* path := getattr VSA_NETWORK_CONFIG_FILE in
  let* data := _read_json path in
  let* _ := setattr network_config_data data in
  let* v := field2 network_config_data "virtual_bridge" "name" in
  let* _ := setattr v_bridge_name v in
  let* v := field2 network_config_data "virtual_bridge" "ip_address" in
  let* _ := setattr v_bridge_ip v in
  let* v := field2 network_config_data "virtual_bridge" "interface" in
  let* _ := setattr v_interface v in
  let* v := field2 network_config_data "vsa_network" "ip_address" in
  let* _ := setattr vsa_ip v in
  let* netmask := _get_netmask_from_interface in
  let* _ := setattr v_netmask netmask in
  let* gateway := _compute_gateway in
  setattr v_gateway gateway.

(** [self.disks += v] *)
Definition extend_disks (v : pyval) : M unit :=
  let* d := getattr disks in
  match d with
  | PList l =>
      let* more := lift (Py.iter v) in
      setattr disks (PList (l ++ more))
  | _ => raise TypeError "unsupported operand type(s) for +="
  end.

Definition _make_list_from_tiered : M pyval :=
  let* _ := setattr disks (PList []) in
  let* tiered := getattr tiered_disks in
  let* t0 := lift (Py.getitem tiered "Tier 0") in
  let* _ := setattr tier0List t0 in
  let* t0 := getattr tier0List in
  let* some0 := lift (Py.any t0) in
  let* _ := if some0 then
              let* t0 := getattr tier0List in extend_disks t0
            else ret tt in
  let* tiered := getattr tiered_disks in
  let* t1 := lift (Py.getitem tiered "Tier 1") in
  let* _ := setattr tier1List t1 in
  let* t1 := getattr tier1List in
  let* some1 := lift (Py.any t1) in
  let* _ := if some1 then
              let* t1 := getattr tier1List in extend_disks t1
            else ret tt in
  getattr disks.

(** The result is a list of [str]: the fields of the script's output. *)
Definition _discover_disks : M (list string) :=
  let* dir := getattr CONFIG_DIR in
  let* script := lift (Py.add_str dir "/scripts/get_devices.sh") in
  let* out := ask (fun tr => h_probe H tr script) in
  let* _ := emit (EvProbe script) in
  match out with
  | Some text => ret (Py.split " "%char text)
  | None => raise OSError "cannot execute get_devices.sh"
  end.

Definition _read_inputs : M unit :=
  let* _ := _read_network_input in
  let* config_file := getattr VSA_CONFIG_FILE in
  let* _ := _read_configuration_input config_file in
  try_except
    (let* df := getattr disk_file in
     let* _ :=
       if Py.truthy df then
         let* df := getattr disk_file in
         let* data := _read_json df in
         let* _ := setattr vsa_disks data in
         let* data := getattr vsa_disks in
         let* tiered := lift (Py.getitem data "vsa_disks") in
         let* _ := setattr tiered_disks tiered in
         let* l := _make_list_from_tiered in
         setattr disks l
       else
         let* l := _discover_disks in
         setattr disks (PList (PStr <$> l)) in
     let* d := getattr disks in
     let* n := lift (Py.len d) in
     setattr total_disks (PInt n))
    (only IOError (fun e arg =>
       raise DiskFileError
             ("Failed to read vsa_disks.json  " +:+ message e arg))).

Definition _create_installer_input_json : M unit :=
  let* installer := getattr VSA_INSTALLER in
  let* prefix := lift (Py.add_str installer " -create-default-json -disks ") in
  let* total := getattr total_disks in
  let command := prefix +:+ Py.format total in
  let* total := getattr total_disks in
  let* _ := if Py.eq_int total 0 then
              raise InvalidInputException
                    "Minimum number of disks must be 1. No disks are available"
            else ret tt in
  let* ao := getattr is_AO_enabled in
  let* command :=
    if Py.truthy ao then
      let* total := getattr total_disks in
      if Py.gt_int total 1 then ret (command +:+ " -tiering")
      else raise InvalidInputException
                 "Cannot enable AO as only one disk is available"
    else ret command in
  let* resp := _do_operation command false in
  if negb (resp =? 0) then raise DefaultJSONCreationFailed (Py.str_int resp)
  else ret tt.

(** The [for disk in self.disks] loop of [_validate_disks]. *)
Fixpoint validate_loop (disks_from_host : list string) (l : list pyval)
    : outcome unit :=
  match l with
  | [] => Ok tt
  | disk :: rest =>
      if negb (Py.in_strs disk disks_from_host) then
        Raise DeviceValidationFailed
              "Invalid disk entries are present in the file"
      else validate_loop disks_from_host rest
  end.

Definition _validate_disks : M unit :=
  let* disks_from_host := _discover_disks in
  let* ds := getattr disks in
  let* l := lift (Py.iter ds) in
  lift (validate_loop disks_from_host l).

(** [for x in data[key]: body], the body assigning to items of [x]: the
    elements of a list are updated in place; the elements a string or a
    dictionary yields are strings, which an assignment cannot change. *)
Definition for_in (data : pyval) (key : string)
    (body : list pyval -> M (list pyval)) : M pyval :=
  let* c := lift (Py.getitem data key) in
  match c with
  | PList l =>
      let* l' := body l in
      lift (Py.setitem data key (PList l'))
  | _ =>
      let* elements := lift (Py.iter c) in
      let* _ := body elements in
      ret data
  end.

(** The [for network in data["Networks"]] loop. *)
Fixpoint networks_loop (l : list pyval) : M (list pyval) :=
  match l with
  | [] => ret []
  | network :: rest =>
      let* network := lift (Py.setitem network "DHCP" (PInt 0)) in
      let* ip := getattr vsa_ip in
      let* network := lift (Py.setitem network "IPAddress" ip) in
      let* mask := getattr v_netmask in
      let* network := lift (Py.setitem network "Subnet" mask) in
      let* gateway := getattr v_gateway in
      let* network := lift (Py.setitem network "Gateway" gateway) in
      let* name := getattr v_network_name in
      let* network := lift (Py.setitem network "NetworkInterface" name) in
      let* rest := networks_loop rest in
      ret (network :: rest)
  end.

(** The [for disk in data["Disks"]] loop when auto-tiering is enabled and a
    disk file was given.  [self.tier0List] and [self.tier1List] were read
    by the two [len] just before the loop. *)
Fixpoint tiered_loop (tier0 tier1 : pyval)
    (tier0count tier1count tier_1_counter : Z) (Disks : list pyval)
    : outcome (list pyval) :=
  match Disks with
  | [] => Ok []
  | disk :: rest =>
      if negb (tier0count =? 0) then
        let? location := Py.getitem_int tier0 (tier0count - 1) in
        let? disk := Py.setitem disk "Location" location in
        let? disk := Py.setitem disk "Size" (PStr "") in
        let? rest := tiered_loop tier0 tier1 (tier0count - 1) tier1count
                                 tier_1_counter rest in
        Ok (disk :: rest)
      else if tier1count >? 0 then
        let? location := Py.getitem_int tier1 tier_1_counter in
        let? disk := Py.setitem disk "Location" location in
        let? disk := Py.setitem disk "Tier" (PStr "Tier 1") in
        let? disk := Py.setitem disk "Size" (PStr "") in
        let? rest := tiered_loop tier0 tier1 tier0count (tier1count - 1)
                                 (tier_1_counter + 1) rest in
        Ok (disk :: rest)
      else
        let? rest := tiered_loop tier0 tier1 tier0count tier1count
                                 tier_1_counter rest in
        Ok (disk :: rest)
  end.

(** The loop when auto-tiering is enabled and no disk file was given.
    [counter] moves on only in the [else] branch.  [self.disks] was read by
    [_validate_disks]. *)
Fixpoint sdb_loop (the_disks : pyval) (counter : Z) (Disks : list pyval)
    : outcome (list pyval) :=
  match Disks with
  | [] => Ok []
  | disk :: rest =>
      let? d := Py.getitem_int the_disks counter in
      if Py.eq_str d "/dev/sdb" then
        let? disk := Py.setitem disk "Tier" (PStr "Tier 0") in
        let? rest := sdb_loop the_disks counter rest in
        Ok (disk :: rest)
      else
        let? disk := Py.setitem disk "Tier" (PStr "Tier 1") in
        let? d := Py.getitem_int the_disks counter in
        let? disk := Py.setitem disk "Location" d in
        let? disk := Py.setitem disk "Size" (PStr "") in
        let? rest := sdb_loop the_disks (counter + 1) rest in
        Ok (disk :: rest)
  end.

(** The loop when auto-tiering is not enabled. *)
Fixpoint plain_loop (the_disks : pyval) (counter : Z) (Disks : list pyval)
    : outcome (list pyval) :=
  match Disks with
  | [] => Ok []
  | disk :: rest =>
      let? d := Py.getitem_int the_disks counter in
      let? disk := Py.setitem disk "Location" d in
      let? disk := Py.setitem disk "Size" (PStr "") in
      let? rest := plain_loop the_disks (counter + 1) rest in
      Ok (disk :: rest)
  end.

Definition _initialize_default_json : M unit :=
  try_except
    (let* data := _read_json (PStr "default-input.json") in
     let* name := getattr host_name in
     let* data := lift (Py.setitem data "HostName" name) in
     let* pool := getattr os_image_storagepool in
     let* data := lift (Py.setitem data "OSImageStoragePool" pool) in
     let* data := for_in data "Networks" networks_loop in
     let* _ := _validate_disks in
     let* ao := getattr is_AO_enabled in
     let* data :=
       if Py.truthy ao then
         let* df := getattr disk_file in
         if Py.truthy df then
           let* t0 := getattr tier0List in
           let* tier0count := lift (Py.len t0) in
           let* t1 := getattr tier1List in
           let* tier1count := lift (Py.len t1) in
           for_in data "Disks" (fun Disks =>
             let* t0 := getattr tier0List in
             let* t1 := getattr tier1List in
             lift (tiered_loop t0 t1 tier0count tier1count 0 Disks))
         else
           for_in data "Disks" (fun Disks =>
             let* ds := getattr disks in
             lift (sdb_loop ds 0 Disks))
       else
         for_in data "Disks" (fun Disks =>
           let* ds := getattr disks in
           lift (plain_loop ds 0 Disks)) in
     let* _ := open_w "default-input.json" in
     write "default-input.json" (EvWriteJson "default-input.json" data))
    (fun e arg =>
       raise DefaultJSONInitializationFailed
             "An unknown exception during default input json initialization").

Definition _virtual_network_define (network_file : string) : M unit :=
  let* return_val := _do_operation ("virsh net-define " +:+ network_file) false in
  if String.eqb (Py.str_int return_val) "0" then
    let* name := getattr v_network_name in
    let* op := lift (Py.str_add "virsh net-start " name) in
    let* _ := _do_operation op false in
    let* name := getattr v_network_name in
    let* op := lift (Py.str_add "virsh net-autostart " name) in
    let* _ := _do_operation op false in
    ret tt
  else
    raise BridgeCreationFailed "Creation of virtual network failed".

Definition _virtual_storage_pool_define (pool_file : string) : M unit :=
  let* return_val := _do_operation ("virsh pool-define " +:+ pool_file) false in
  if String.eqb (Py.str_int return_val) "0" then
    let* name := getattr os_image_storagepool in
    let* op := lift (Py.str_add "virsh pool-start " name) in
    let* _ := _do_operation op false in
    let* name := getattr os_image_storagepool in
    let* op := lift (Py.str_add "virsh pool-autostart " name) in
    let* _ := _do_operation op false in
    ret tt
  else
    raise StoragePoolCreationFailed "Creation of virtual storage pool failed".

(** [with open(path, 'r') as file_desc: file_desc.read()] *)
Definition read_text (path : string) : M string :=
  let* r := ask (fun tr => h_read_text H tr path) in
  let* _ := emit (EvReadText path) in
  match r with
  | Some text => ret text
  | None => raise IOError "cannot read"
  end.

Definition _create_bridge : M unit :=
  try_except
    (let* dir := getattr CONFIG_DIR in
     let* template := lift (Py.add_str dir "/data/network_template.xml") in
     let* xmlstring := read_text template in
     let* network := getattr v_network_name in
     let* bridge := getattr v_bridge_name in
     let substitutions : gmap string pyval :=
       <["NETWORK_NAME" := network]> (<["BRIDGE_NAME" := bridge]> ∅) in
     let* xmlstring := lift (Py.re_sub substitutions None xmlstring) in
     let* _ := open_w "network_vsa.xml" in
     let* _ := write "network_vsa.xml"
                     (EvWriteText "network_vsa.xml" xmlstring) in
     _virtual_network_define "network_vsa.xml")
    (fun e arg => raise BridgeCreationFailed (message e arg)).

Definition _create_storage_pool : M unit :=
  try_except
    (let* dir := getattr CONFIG_DIR in
     let* template := lift (Py.add_str dir "/data/storage_pool_template.xml") in
     let* xmlstring := read_text template in
     let* pool := getattr os_image_storagepool in
     let* location := getattr pool_location in
     let substitutions : gmap string pyval :=
       <["POOL_NAME" := pool]> (<["POOL_PATH" := location]> ∅) in
     let* xmlstring := lift (Py.re_sub substitutions None xmlstring) in
     let* _ := open_w "storage_pool_vsa.xml" in
     let* _ := write "storage_pool_vsa.xml"
                     (EvWriteText "storage_pool_vsa.xml" xmlstring) in
     _virtual_storage_pool_define "storage_pool_vsa.xml")
    (fun e arg => raise StoragePoolCreationFailed (message e arg)).

(** [vsa_data[key] = v] where [vsa_data] is the object
    [self.vsa_config_data["vsa_config"]] itself: the assignment shows
    through the attribute. *)
Definition set_vsa_data (key : string) (v : pyval) : M unit :=
  let* config := getattr vsa_config_data in
  let* vsa_data := lift (Py.getitem config "vsa_config") in
  let* vsa_data := lift (Py.setitem vsa_data key v) in
  let* config := lift (Py.setitem config "vsa_config" vsa_data) in
  setattr vsa_config_data config.

Definition get_vsa_data (key : string) : M pyval :=
  field2 vsa_config_data "vsa_config" key.

Definition utcnow : M string :=
  let* now := ask (h_utcnow H) in
  let* _ := emit EvUtcnow in
  ret now.

Definition _update_vsa_config : M unit :=
  try_except
    (let* file := getattr VSA_CONFIG_FILE in
     let* path := as_path file in
     let* _ := open_w path in
     let* created_date := utcnow in
     let* created_at := get_vsa_data "created_at" in
     let* _ :=
       if Py.eq_str created_at "" then
         let* _ := set_vsa_data "created_at" (PStr created_date) in
         set_vsa_data "updated_at" (PStr created_date)
       else
         let* now := utcnow in
         let* _ := set_vsa_data "updated_at" (PStr now) in
         let* count := get_vsa_data "file_access_count" in
         let* count := lift (Py.iadd_int count 1) in
         set_vsa_data "file_access_count" count in
     let* config := getattr vsa_config_data in
     write path (EvWriteJson path config))
    (fun e arg => raise UpdateConfigFailed "Updating VSA config file failed").

Definition _create_vsa_vm : M unit :=
  let* installer := getattr VSA_INSTALLER in
  let* prefix := lift (Py.add_str installer " -no-prompt ") in
  let prefix := prefix +:+ "default-input.json " in
  let* package := getattr VSA_PACKAGE in
  let* op := lift (Py.str_add prefix package) in
  let* vsa_install_resp := _do_operation op true in
  if negb (vsa_install_resp =? 0) then
    raise VMCreateFailed "VSA installation failed"
  else
    let* _ := _update_vsa_config in
    let* auto := getattr autostart in
    if Py.truthy auto then
      let* name := getattr host_name in
      let* op := lift (Py.str_add "virsh autostart " name) in
      let* _ := _do_operation op false in
      ret tt
    else ret tt.

Definition _vsa_network_destroy : M unit :=
  try_except
    (let* name := getattr v_network_name in
     let* n := as_path name in
     let* _ := virt (networkLookupByName n) in
     let* _ := virt (network_destroy n) in
     virt (network_undefine n))
    (fun e arg =>
       raise NetworkDestroyFailed "Failed to destroy and undefine the network").

Definition _vsa_storage_pool_destroy : M unit :=
  try_except
    (let* name := getattr os_image_storagepool in
     let* n := as_path name in
     let* _ := virt (storagePoolLookupByName n) in
     let* _ := virt (pool_destroy n) in
     virt (pool_undefine n))
    (fun e arg =>
       raise PoolDestroyFailed
             "Failed to destroy and undefine the storage pool").

Definition _vsa_domain_destroy : M bool :=
  try_except
    (let* name := getattr host_name in
     let* n := as_path name in
     let* _ := virt (lookupByName n) in
     let* _ := virt (domain_destroy n) in
     let* _ := virt (domain_undefine n) in
     ret true)
    (fun e arg =>
       raise DomainDestroyFailed
             "Failed to destroy and undefine the VSA domain: ").

Definition _roll_back_installation : M unit :=
  let* _ := _vsa_network_destroy in
  _vsa_storage_pool_destroy.

(** The body of the [try] of [install_vsa]. *)
Definition install_steps : M unit :=
  let* _ := _read_inputs in
  let* _ := _create_installer_input_json in
  let* _ := _initialize_default_json in
  let* _ := _create_bridge in
  let* _ := _create_storage_pool in
  _create_vsa_vm.

(** The steps of [install_steps] that come before the storage pool. *)
Definition steps_before_pool : M unit :=
  let* _ := _read_inputs in
  let* _ := _create_installer_input_json in
  let* _ := _initialize_default_json in
  _create_bridge.

(** The two [except] clauses of [install_vsa]. *)
Definition install_handlers (e : exc) (arg : string) : M unit :=
  match e with
  | StoragePoolCreationFailed =>
      let* _ := _vsa_network_destroy in
      sys_exit 1
  | VMCreateFailed =>
      let* _ := _roll_back_installation in
      sys_exit 1
  | _ => raise e arg
  end.

Definition install_vsa : M unit :=
  let* _ := _pre_install_vsa in
  try_except install_steps install_handlers.

(** [shutil.rmtree(path, ignore_errors=True)] *)
Definition rmtree (path : pyval) : M unit :=
  let* p := as_path path in
  emit (EvRmtree p).

Definition destroy_vsa : M unit :=
  try_except
    (let* config_file := getattr VSA_CONFIG_FILE in
     let* _ := _read_configuration_input config_file in
     let* _ := _vsa_domain_destroy in
     let* _ := _vsa_network_destroy in
     let* _ := _vsa_storage_pool_destroy in
     let* location := getattr pool_location in
     rmtree location)
    (only IOError (fun e arg =>
       raise DestroyFailed ("Failed to destroy VSA setup " +:+ message e arg))).

End Methods.

End Deployer.
Import Deployer.

(** ** A laboratory host

    Concrete files and answers on which the methods can be run. *)

Module Lab.

Definition dict (l : list (string * pyval)) : pyval := PDict (list_to_map l).

(** vsa_config.json before the first installation *)
Definition vsa_record : gmap string pyval :=
  list_to_map
    [("network_name", PStr "vsa-network"); ("hostname", PStr "vsa1");
     ("os_image_storagepool", PStr "vsa-storage-pool");
     ("os_image_dir", PStr "/mnt/state/vsa"); ("autostart", PStr "True");
     ("created_at", PStr ""); ("updated_at", PStr "");
     ("file_access_count", PInt 0)].

Definition vsa_config : pyval := dict [("vsa_config", PDict vsa_record)].

(** vsa_network_config.json *)
Definition network_config : pyval :=
  dict [("virtual_bridge",
         dict [("name", PStr "vsa-bridge"); ("ip_address", PStr "10.0.0.2");
               ("interface", PStr "eth1")]);
        ("vsa_network", dict [("ip_address", PStr "10.0.0.5")])].

(** A disk file with two tiers *)
Definition vsa_disks_json : pyval :=
  dict [("vsa_disks",
         dict [("Tier 0", PList [PStr "/dev/sdb"; PStr "/dev/sdc"]);
               ("Tier 1", PList [PStr "/dev/sdd"; PStr "/dev/sde"])])].

Definition blank_disk : gmap string pyval :=
  list_to_map [("Location", PStr ""); ("Size", PStr "100GB")].

(** default-input.json as the installer creates it for [n] disks *)
Definition skeleton (n : nat) : pyval :=
  dict [("HostName", PStr ""); ("OSImageStoragePool", PStr "");
        ("Networks", PList [dict [("DHCP", PInt 1)]]);
        ("Disks", PList (replicate n (PDict blank_disk)))].

Definition environ : gmap string string :=
  list_to_map
    [("VSA_CONFIG_DIR", "/etc/vsa"); ("VSA_IMAGE_PATH", "/opt/vsa.img");
     ("VSA_INSTALLER", "/opt/vsa_installer");
     ("VSA_NETWORK_CONFIG_FILE", "/etc/vsa/vsa_network_config.json");
     ("VSA_CONFIG_FILE", "/etc/vsa/vsa_config.json")].

Definition network_template : string :=
  "<network><name>%NETWORK_NAME%</name><bridge name='%BRIDGE_NAME%'/></network>".

Definition storage_pool_template : string :=
  "<pool type='dir'><name>%POOL_NAME%</name><path>%POOL_PATH%</path></pool>".

(** Everything on the connection succeeds, but there is no domain. *)
Definition no_domain : list event -> virt_call -> bool :=
  fun _ c => match c with lookupByName _ => false | _ => true end.

(** Everything answers favourably: no domain yet (error 42), [probe] is
    the output of get_devices.sh, every command exits with 0. *)
Definition quiet (probe : string) (skeleton_disks : nat) : host := {|
  h_open_json := fun _ path =>
    if String.eqb path "/etc/vsa/vsa_config.json" then Parsed vsa_config
    else if String.eqb path "/etc/vsa/vsa_network_config.json"
         then Parsed network_config
    else if String.eqb path "default-input.json"
         then Parsed (skeleton skeleton_disks)
    else if String.eqb path "/etc/vsa/vsa_disks.json" then Parsed vsa_disks_json
    else if String.eqb path "/etc/vsa/broken.json"
         then NotJson "No JSON object could be decoded"
    else IOErr "No such file or directory";
  h_read_text := fun _ path =>
    if String.eqb path "/etc/vsa/data/network_template.xml"
    then Some network_template
    else if String.eqb path "/etc/vsa/data/storage_pool_template.xml"
         then Some storage_pool_template
    else None;
  h_open_w := fun _ _ => true;
  h_write := fun _ _ => true;
  h_exists := fun _ _ => true;
  h_makedirs := fun _ _ => true;
  h_sh := fun _ _ => 0;
  h_probe := fun _ _ => Some probe;
  h_netmask := fun _ name =>
    if Py.eq_str name "vsa-bridge" then Some "255.255.255.0"
    else if Py.eq_str name "eth1" then Some "255.255.0.0"
    else None;
  h_gateway := fun cidr =>
    if String.eqb cidr "10.0.0.5/255.255.255.0" then Some "10.0.0.1" else None;
  h_utcnow := fun tr => "2016-03-01 10:00:0" +:+ pretty (length tr `mod` 10)%nat;
  h_virt := no_domain;
  h_state := fun _ _ => 0;
  h_last_error := fun _ => Some 42
|}.

Definition with_sh (sh : list event -> string -> Z) (h : host) : host := {|
  h_open_json := h_open_json h; h_read_text := h_read_text h;
  h_open_w := h_open_w h; h_write := h_write h; h_exists := h_exists h;
  h_makedirs := h_makedirs h; h_sh := sh; h_probe := h_probe h;
  h_netmask := h_netmask h; h_gateway := h_gateway h;
  h_utcnow := h_utcnow h; h_virt := h_virt h; h_state := h_state h;
  h_last_error := h_last_error h
|}.

Definition with_virt (virt : list event -> virt_call -> bool) (h : host)
    : host := {|
  h_open_json := h_open_json h; h_read_text := h_read_text h;
  h_open_w := h_open_w h; h_write := h_write h; h_exists := h_exists h;
  h_makedirs := h_makedirs h; h_sh := h_sh h; h_probe := h_probe h;
  h_netmask := h_netmask h; h_gateway := h_gateway h;
  h_utcnow := h_utcnow h; h_virt := virt; h_state := h_state h;
  h_last_error := h_last_error h
|}.

Definition with_state (code : Z) (h : host) : host := {|
  h_open_json := h_open_json h; h_read_text := h_read_text h;
  h_open_w := h_open_w h; h_write := h_write h; h_exists := h_exists h;
  h_makedirs := h_makedirs h; h_sh := h_sh h; h_probe := h_probe h;
  h_netmask := h_netmask h; h_gateway := h_gateway h;
  h_utcnow := h_utcnow h; h_virt := h_virt h; h_state := fun _ _ => code;
  h_last_error := h_last_error h
|}.

Definition with_netmask (netmask : list event -> pyval -> option string)
    (h : host) : host := {|
  h_open_json := h_open_json h; h_read_text := h_read_text h;
  h_open_w := h_open_w h; h_write := h_write h; h_exists := h_exists h;
  h_makedirs := h_makedirs h; h_sh := h_sh h; h_probe := h_probe h;
  h_netmask := netmask; h_gateway := h_gateway h;
  h_utcnow := h_utcnow h; h_virt := h_virt h; h_state := h_state h;
  h_last_error := h_last_error h
|}.

(** A fresh Deployer. *)
Definition fresh (is_AO_capable disk_file_arg : pyval) : state :=
  match __init__ environ is_AO_capable disk_file_arg with
  | Ok s => s
  | _ => {| attrs := fun _ => None; trace := [] |}
  end.

(** The pool cannot be defined. *)
Definition pool_define_fails : list event -> string -> Z :=
  fun _ op => if String.prefix "virsh pool-define" op then 1 else 0.

(** The network is defined but cannot be started. *)
Definition net_start_fails : list event -> string -> Z :=
  fun _ op => if String.prefix "virsh net-start" op then 1 else 0.


Definition all_present : list event -> virt_call -> bool := fun _ _ => true.

(** The domain is there, it cannot be destroyed. *)
Definition stubborn_domain : list event -> virt_call -> bool :=
  fun _ c => match c with domain_destroy _ => false | _ => true end.

(** A host with two spare disks, and the Deployer after it has read
    vsa_config.json there. *)
Definition two_disks : host := quiet "/dev/sdb /dev/sdc" 2.

Definition four_disks : host := quiet "/dev/sdb /dev/sdc /dev/sdd /dev/sde" 4.

(** The Deployer after [_read_inputs]. *)
Definition resolved (h : host) (is_AO_capable disk_file_arg : pyval)
    : state :=
  (_read_inputs h (fresh is_AO_capable disk_file_arg)).2.

Definition configured (h : host) (is_AO_capable disk_file_arg : pyval)
    : state :=
  (_read_configuration_input h (PStr "/etc/vsa/vsa_config.json")
     (fresh is_AO_capable disk_file_arg)).2.

(** The physical interface has an address, the bridge has none. *)
Definition bridge_without_address : host :=
  with_netmask
    (fun _ name => if Py.eq_str name "eth1" then Some "255.255.0.0" else None)
    two_disks.

(** A domain that is defined but cannot be destroyed. *)
Definition stubborn : host := with_virt stubborn_domain two_disks.

(** The pool cannot be defined; the network can be torn down. *)
Definition pool_fails : host := with_sh pool_define_fails two_disks.


(** Further hosts. *)

Definition with_exists (found : list event -> string -> bool) (h : host)
    : host := {|
  h_open_json := h_open_json h; h_read_text := h_read_text h;
  h_open_w := h_open_w h; h_write := h_write h; h_exists := found;
  h_makedirs := h_makedirs h; h_sh := h_sh h; h_probe := h_probe h;
  h_netmask := h_netmask h; h_gateway := h_gateway h;
  h_utcnow := h_utcnow h; h_virt := h_virt h; h_state := h_state h;
  h_last_error := h_last_error h
|}.

Definition with_last_error (err : list event -> option Z) (h : host)
    : host := {|
  h_open_json := h_open_json h; h_read_text := h_read_text h;
  h_open_w := h_open_w h; h_write := h_write h; h_exists := h_exists h;
  h_makedirs := h_makedirs h; h_sh := h_sh h; h_probe := h_probe h;
  h_netmask := h_netmask h; h_gateway := h_gateway h;
  h_utcnow := h_utcnow h; h_virt := h_virt h; h_state := h_state h;
  h_last_error := err
|}.

Definition with_open_w (writable : list event -> string -> bool) (h : host)
    : host := {|
  h_open_json := h_open_json h; h_read_text := h_read_text h;
  h_open_w := writable; h_write := h_write h; h_exists := h_exists h;
  h_makedirs := h_makedirs h; h_sh := h_sh h; h_probe := h_probe h;
  h_netmask := h_netmask h; h_gateway := h_gateway h;
  h_utcnow := h_utcnow h; h_virt := h_virt h; h_state := h_state h;
  h_last_error := h_last_error h
|}.

(** The pool directory is not there yet. *)
Definition no_pool_directory : host := with_exists (fun _ _ => false) two_disks.

(** libvirt does not answer: error 38 (system error), not 42. *)
Definition libvirt_down : host := with_last_error (fun _ => Some 38) two_disks.

(** The installer cannot create the appliance. *)
Definition installer_fails : host :=
  with_sh (fun _ op => if String.prefix "/opt/vsa_installer -no-prompt" op
                       then 1 else 0)
          two_disks.

(** The installer fails and the pool, never started, cannot be destroyed. *)
Definition installer_fails_pool_stays : host :=
  with_virt (fun _ c => match c with
                        | lookupByName _ | pool_destroy _ => false
                        | _ => true
                        end)
            installer_fails.

(** Domain, network and pool are there and can be torn down. *)
Definition installed : host := with_virt all_present two_disks.

(** vsa_config.json cannot be opened for writing. *)
Definition read_only : host :=
  with_open_w (fun _ path => negb (String.eqb path "/etc/vsa/vsa_config.json"))
              two_disks.

(** get_devices.sh prints nothing. *)
Definition no_spare_disk : host := quiet "" 1.

End Lab.

(** * The vocabulary of the properties *)

(** ** Counting events in a trace *)

Definition count (p : event -> bool) (tr : list event) : nat :=
  length (List.filter p tr).

Definition is_network_call (ev : event) : bool :=
  match ev with
  | EvVirt (networkLookupByName _ | network_destroy _ | network_undefine _) _ => true
  | _ => false
  end.
Definition is_domain_teardown (ev : event) : bool :=
  match ev with
  | EvVirt (domain_destroy _ | domain_undefine _) _ => true
  | _ => false
  end.
Definition is_pool_call (ev : event) : bool :=
  match ev with
  | EvVirt (storagePoolLookupByName _ | pool_destroy _ | pool_undefine _) _ => true
  | _ => false
  end.
Definition is_rmtree (ev : event) : bool :=
  match ev with EvRmtree _ => true | _ => false end.
Definition is_sh (ev : event) : bool :=
  match ev with EvSh _ _ => true | _ => false end.


(** What [destroy_vsa] has left to do after the domain. *)
Definition is_after_domain (ev : event) : bool :=
  is_network_call ev || is_pool_call ev || is_rmtree ev.

(** What [destroy_vsa] has left to do after the network. *)
Definition is_after_network (ev : event) : bool :=
  is_pool_call ev || is_rmtree ev.

(** The computation raises an exception of class [e]. *)
Definition raises {A} (r : outcome A * state) (e : exc) : Prop :=
  exists arg, r.1 = Raise e arg.


(** [m] only adds events of [P] to the trace. *)
Definition extends {A} (P : event -> Prop) (m : M A) : Prop :=
  forall s, exists evs, trace (m s).2 = evs ++ trace s /\ Forall P evs.

(** The events of loading vsa_config.json and of asking for the state of
    the domain: no probe of the disks, no command, nothing written. *)
Definition is_pre_install_event (ev : event) : Prop :=
  match ev with
  | EvOpenJson _ | EvExists _ | EvMakedirs _ | EvLastError => True
  | EvVirt (lookupByName _ | domain_state _) _ => True
  | _ => False
  end.

(** The document [_initialize_default_json] writes. *)
Definition written_document (H : host) (s : state) : option pyval :=
  match trace (_initialize_default_json H s).2 with
  | EvWriteJson "default-input.json" doc :: _ => Some doc
  | _ => None
  end.

Definition disks_of (doc : option pyval) : outcome pyval :=
  match doc with
  | Some d => Py.getitem d "Disks"
  | None => Raise KeyError "no document"
  end.

(** ** Further vocabulary *)


(** An entry of "Disks" that was given the device [location]. *)
Definition placed (location : pyval) (d : gmap string pyval)
    : gmap string pyval :=
  <["Size" := PStr ""]> (<["Location" := location]> d).

(** The same for a device of the second tier, in the order in which the
    loop without a disk file writes the items. *)
Definition placed_tier1 (location : pyval) (d : gmap string pyval)
    : gmap string pyval :=
  <["Size" := PStr ""]>
    (<["Location" := location]> (<["Tier" := PStr "Tier 1"]> d)).

(** The tier as [_make_list_from_tiered] adds it to [self.disks]: not at
    all when [any] finds no true element in it. *)
Definition tier_kept (tier : list pyval) : list pyval :=
  if existsb Py.truthy tier then tier else [].

(** [m] raises only exceptions of [F] and exits only with a status of
    [X]. *)
Definition fails_only {A} (F : exc -> Prop) (X : Z -> Prop) (m : M A)
    : Prop :=
  forall s, match (m s).1 with
            | Ok _ => True
            | Raise e _ => F e
            | Exit code => X code
            end.

(** The same for an operation on values, which never exits. *)
Definition pure_fails {A} (F : exc -> Prop) (o : outcome A) : Prop :=
  match o with
  | Ok _ => True
  | Raise e _ => F e
  | Exit _ => False
  end.

(** The errors of an operation on a value of the wrong shape. *)
Definition value_errors (F : exc -> Prop) : Prop :=
  F KeyError /\ F IndexError /\ F TypeError.

(** What [_read_inputs] can raise. *)
Definition is_input_failure (e : exc) : Prop :=
  match e with
  | JsonParseException | ValueError | NetmaskRetrieveFailed
  | ComputeGatewayFailed | OSError
  | KeyError | IndexError | TypeError | AttributeError => True
  | _ => False
  end.

(** What [install_vsa] can raise. *)
Definition is_install_failure (e : exc) : Prop :=
  match e with
  | VsaStatusFailed | InvalidInputException | DefaultJSONCreationFailed
  | DefaultJSONInitializationFailed | BridgeCreationFailed
  | UpdateConfigFailed | NetworkDestroyFailed | PoolDestroyFailed => True
  | e => is_input_failure e
  end.

(** What [destroy_vsa] can raise. *)
Definition is_destroy_failure (e : exc) : Prop :=
  match e with
  | JsonParseException | ValueError | OSError
  | KeyError | IndexError | TypeError | AttributeError
  | DomainDestroyFailed | NetworkDestroyFailed | PoolDestroyFailed => True
  | _ => False
  end.

(** A network of the document with the settings of the appliance. *)
Definition with_settings (ip mask gateway name : pyval)
    (network : gmap string pyval) : gmap string pyval :=
  <["NetworkInterface" := name]>
    (<["Gateway" := gateway]>
       (<["Subnet" := mask]>
          (<["IPAddress" := ip]> (<["DHCP" := PInt 0]> network)))).

(** * Properties *)

(** ** Basic facts *)

(** Methods are unfolded on request only. *)
#[local] Arguments _do_operation : simpl never.
#[local] Arguments _read_json : simpl never.
#[local] Arguments _read_configuration_input : simpl never.
#[local] Arguments _report_libvirt_error : simpl never.
#[local] Arguments _get_vsa_vm_status : simpl never.
#[local] Arguments _pre_install_vsa : simpl never.
#[local] Arguments _get_netmask_from_interface : simpl never.
#[local] Arguments _compute_gateway : simpl never.
#[local] Arguments _read_network_input : simpl never.
#[local] Arguments _make_list_from_tiered : simpl never.
#[local] Arguments _discover_disks : simpl never.
#[local] Arguments _read_inputs : simpl never.
#[local] Arguments _create_installer_input_json : simpl never.
#[local] Arguments _validate_disks : simpl never.
#[local] Arguments _initialize_default_json : simpl never.
#[local] Arguments _virtual_network_define : simpl never.
#[local] Arguments _virtual_storage_pool_define : simpl never.
#[local] Arguments _create_bridge : simpl never.
#[local] Arguments _create_storage_pool : simpl never.
#[local] Arguments _update_vsa_config : simpl never.
#[local] Arguments _create_vsa_vm : simpl never.
#[local] Arguments _vsa_network_destroy : simpl never.
#[local] Arguments _vsa_storage_pool_destroy : simpl never.
#[local] Arguments _vsa_domain_destroy : simpl never.
#[local] Arguments _roll_back_installation : simpl never.
#[local] Arguments install_steps : simpl never.
#[local] Arguments install_handlers : simpl never.
#[local] Arguments install_vsa : simpl never.
#[local] Arguments destroy_vsa : simpl never.

Lemma str_int_zero (z : Z) : String.eqb (Py.str_int z) "0" = (z =? 0).
Proof.
  destruct (Z.eqb_spec z 0) as [-> | Hz].
  - reflexivity.
  - apply String.eqb_neq. intros E. apply Hz.
    apply (inj (pretty : Z -> string)). exact E.
Qed.

Lemma do_operation_run H op out s :
  _do_operation H op out s =
  (Ok (h_sh H (trace s) op),
   {| attrs := attrs s; trace := EvSh op (h_sh H (trace s) op) :: trace s |}).
Proof.
  unfold _do_operation, bind, ask, emit, ret. simpl.
  destruct (Z.eqb_spec (h_sh H (trace s) op) 0) as [E | E]; [rewrite E |]; reflexivity.
Qed.

(** Unfolding the monad and running a method on the facts at hand. *)
Ltac munfold :=
  unfold bind, ret, lift, raise, sys_exit, getattr, setattr, ask, emit,
    try_except, try_except_bare, only, as_path, virt, open_w, write,
    read_text, utcnow, field2, get_vsa_data, set_vsa_data, obind in *.

Ltac use_facts :=
  repeat match goal with
         | E : ?l = _ |- context [?l] => rewrite E
         end.

Ltac mrun :=
  repeat (progress (munfold; cbn; use_facts;
                    rewrite ?do_operation_run, ?lookup_insert_eq)).

(** ** C5: defining a network or a pool *)

Lemma bind_do_operation {B} H op out (k : Z -> M B) s :
  bind (_do_operation H op out) k s =
  k (h_sh H (trace s) op)
    {| attrs := attrs s; trace := EvSh op (h_sh H (trace s) op) :: trace s |}.
Proof. unfold bind. rewrite do_operation_run. reflexivity. Qed.

Lemma network_define_run H network_file s :
  let define := "virsh net-define " +:+ network_file in
  let rc := h_sh H (trace s) define in
  (rc <> 0 ->
   _virtual_network_define H network_file s =
   (Raise BridgeCreationFailed "Creation of virtual network failed",
    {| attrs := attrs s; trace := EvSh define rc :: trace s |})) /\
  (rc = 0 -> ~ raises (_virtual_network_define H network_file s) BridgeCreationFailed).
Proof.
  intros define rc. unfold _virtual_network_define.
  rewrite bind_do_operation.
  change (h_sh H (trace s) ("virsh net-define " +:+ network_file)) with rc.
  rewrite str_int_zero. split.
  - intros Hrc. apply Z.eqb_neq in Hrc. rewrite Hrc. reflexivity.
  - intros Hrc. rewrite Hrc. simpl. intros [arg Harg]. revert Harg.
    destruct (attrs s v_network_name) as [name |] eqn:E; mrun; [| discriminate].
    destruct name; mrun; discriminate.
Qed.

Lemma pool_define_run H pool_file s :
  let define := "virsh pool-define " +:+ pool_file in
  let rc := h_sh H (trace s) define in
  (rc <> 0 ->
   _virtual_storage_pool_define H pool_file s =
   (Raise StoragePoolCreationFailed "Creation of virtual storage pool failed",
    {| attrs := attrs s; trace := EvSh define rc :: trace s |})) /\
  (rc = 0 -> ~ raises (_virtual_storage_pool_define H pool_file s) StoragePoolCreationFailed).
Proof.
  intros define rc. unfold _virtual_storage_pool_define.
  rewrite bind_do_operation.
  change (h_sh H (trace s) ("virsh pool-define " +:+ pool_file)) with rc.
  rewrite str_int_zero. split.
  - intros Hrc. apply Z.eqb_neq in Hrc. rewrite Hrc. reflexivity.
  - intros Hrc. rewrite Hrc. simpl. intros [arg Harg]. revert Harg.
    destruct (attrs s os_image_storagepool) as [name |] eqn:E; mrun; [| discriminate].
    destruct name; mrun; discriminate.
Qed.

(** C5 (amended). Defining and starting a network or a storage pool raises
    its creation error exactly when the define command exits with a
    non-zero status, whatever the start and autostart commands report; and
    when the define command fails it is the only command issued. *)
Theorem define_and_start_raises_iff_define_fails
    H s (network_file pool_file : string) :
  let net_define := "virsh net-define " +:+ network_file in
  let pool_define := "virsh pool-define " +:+ pool_file in
  let rn := h_sh H (trace s) net_define in
  let rp := h_sh H (trace s) pool_define in
  (raises (_virtual_network_define H network_file s) BridgeCreationFailed
   <-> rn <> 0) /\
  (rn <> 0 ->
   trace (_virtual_network_define H network_file s).2
   = EvSh net_define rn :: trace s) /\
  (raises (_virtual_storage_pool_define H pool_file s) StoragePoolCreationFailed
   <-> rp <> 0) /\
  (rp <> 0 ->
   trace (_virtual_storage_pool_define H pool_file s).2
   = EvSh pool_define rp :: trace s).
Proof.
  intros net_define pool_define rn rp.
  destruct (network_define_run H network_file s) as [Nf Nok].
  destruct (pool_define_run H pool_file s) as [Pf Pok].
  cbv zeta in Nf, Nok, Pf, Pok.
  repeat split.
  - intros R E. exact (Nok E R).
  - intros Hrc. rewrite (Nf Hrc). eexists. reflexivity.
  - intros Hrc. rewrite (Nf Hrc). reflexivity.
  - intros R E. exact (Pok E R).
  - intros Hrc. rewrite (Pf Hrc). eexists. reflexivity.
  - intros Hrc. rewrite (Pf Hrc). reflexivity.
Qed.

(** The pool of the laboratory cannot be defined: one command, one error. *)
Lemma define_and_start_witness :
  raises (_virtual_storage_pool_define
            (Lab.with_sh Lab.pool_define_fails Lab.two_disks)
            "storage_pool_vsa.xml"
            (Lab.configured Lab.two_disks (PBool false) PNone))
         StoragePoolCreationFailed /\
  count is_sh
    (trace (_virtual_storage_pool_define
              (Lab.with_sh Lab.pool_define_fails Lab.two_disks)
              "storage_pool_vsa.xml"
              (Lab.configured Lab.two_disks (PBool false) PNone)).2) = 1%nat.
Proof.
  destruct (define_and_start_raises_iff_define_fails
              (Lab.with_sh Lab.pool_define_fails Lab.two_disks)
              (Lab.configured Lab.two_disks (PBool false) PNone)
              "network_vsa.xml" "storage_pool_vsa.xml")
    as (_ & _ & Hiff & Htrace).
  split.
  - apply Hiff. vm_compute. discriminate.
  - rewrite Htrace; [reflexivity | vm_compute; discriminate].
Defined.

(** C5, as stated, fails: the network is defined, [virsh net-start] exits
    with status 1, and nothing is raised. *)
Lemma start_failure_is_not_raised :
  ~ ((exists e arg,
        (_virtual_network_define
           (Lab.with_sh Lab.net_start_fails Lab.two_disks) "network_vsa.xml"
           (Lab.configured Lab.two_disks (PBool false) PNone)).1
        = Raise e arg)
     <->
     (h_sh (Lab.with_sh Lab.net_start_fails Lab.two_disks)
           (trace (Lab.configured Lab.two_disks (PBool false) PNone))
           "virsh net-define network_vsa.xml" <> 0
      \/
      h_sh (Lab.with_sh Lab.net_start_fails Lab.two_disks)
           (EvSh "virsh net-define network_vsa.xml" 0
              :: trace (Lab.configured Lab.two_disks (PBool false) PNone))
           "virsh net-start vsa-network" <> 0)).
Proof.
  intros [_ Hback].
  destruct Hback as (e & arg & Hraise).
  - right. vm_compute. discriminate.
  - vm_compute in Hraise. discriminate.
Qed.

(** ** C6: loading a JSON file *)

(** A file that cannot be opened or read: [JsonParseException], and the
    message names the path. *)
Lemma read_json_io_error H s path strerror :
  h_open_json H (trace s) path = IOErr strerror ->
  _read_json H (PStr path) s =
  (Raise JsonParseException ("Failed to load " +:+ path +:+ " " +:+ ""),
   {| attrs := attrs s; trace := EvOpenJson path :: trace s |}).
Proof. intros E. unfold _read_json. mrun. reflexivity. Qed.

Lemma read_json_parsed H s path v :
  h_open_json H (trace s) path = Parsed v ->
  _read_json H (PStr path) s =
  (Ok v, {| attrs := attrs s; trace := EvOpenJson path :: trace s |}).
Proof. intros E. unfold _read_json. mrun. reflexivity. Qed.

(** C6 (what the code does). When the file is there but does not hold
    JSON, the [ValueError] of [json.load] leaves [_read_json] as it is: it
    is not turned into a [JsonParseException] and carries no path. *)
Theorem read_json_invalid_json_escapes H s path why :
  h_open_json H (trace s) path = NotJson why ->
  _read_json H (PStr path) s =
  (Raise ValueError why,
   {| attrs := attrs s; trace := EvOpenJson path :: trace s |}).
Proof. intros E. unfold _read_json. mrun. reflexivity. Qed.

(** A file of the laboratory that does not hold JSON. *)
Lemma read_json_invalid_json_witness :
  h_open_json Lab.two_disks [] "/etc/vsa/broken.json"
  = NotJson "No JSON object could be decoded" /\
  _read_json Lab.two_disks (PStr "/etc/vsa/broken.json")
             {| attrs := fun _ => None; trace := [] |}
  = (Raise ValueError "No JSON object could be decoded",
     {| attrs := fun _ => None; trace := [EvOpenJson "/etc/vsa/broken.json"] |}).
Proof.
  split; [reflexivity |].
  apply (read_json_invalid_json_escapes Lab.two_disks
           {| attrs := fun _ => None; trace := [] |}).
  reflexivity.
Defined.

(** ** C9: validating the disks against the host *)

Lemma in_strs_spec (d : pyval) (l : list string) :
  Py.in_strs d l = true <-> exists p, p ∈ l /\ d = PStr p.
Proof.
  unfold Py.in_strs. rewrite existsb_exists. split.
  - intros (p & Hin & Heq). exists p. split; [by apply list_elem_of_In |].
    destruct d; simpl in Heq; try discriminate.
    apply String.eqb_eq in Heq. by subst.
  - intros (p & Hin & ->). exists p. split; [by apply list_elem_of_In |].
    simpl. apply String.eqb_refl.
Qed.

Lemma validate_loop_cases (found : list string) (l : list pyval) :
  (validate_loop found l = Ok tt /\
   forall d, d ∈ l -> Py.in_strs d found = true) \/
  (validate_loop found l
   = Raise DeviceValidationFailed "Invalid disk entries are present in the file" /\
   exists d, d ∈ l /\ Py.in_strs d found = false).
Proof.
  induction l as [| d l IH]; simpl.
  - left. split; [reflexivity |]. intros d Hd. by apply elem_of_nil in Hd.
  - destruct (Py.in_strs d found) eqn:Hd; simpl.
    + destruct IH as [[Hok Hall] | [Hbad (d' & Hin & Hd')]].
      * left. split; [exact Hok |]. intros x Hx.
        apply elem_of_cons in Hx as [-> | Hx]; [exact Hd | by apply Hall].
      * right. split; [exact Hbad |]. exists d'. split; [by apply elem_of_cons; right | exact Hd'].
    + right. split; [reflexivity |]. exists d. split; [by apply elem_of_cons; left | exact Hd].
Qed.

Lemma discover_disks_run H s dir out :
  attrs s CONFIG_DIR = Some (PStr dir) ->
  h_probe H (trace s) (dir +:+ "/scripts/get_devices.sh") = Some out ->
  _discover_disks H s =
  (Ok (Py.split " " out),
   {| attrs := attrs s;
      trace := EvProbe (dir +:+ "/scripts/get_devices.sh") :: trace s |}).
Proof. intros Hdir Hout. unfold _discover_disks. mrun. reflexivity. Qed.

(** C9. With the devices the host reports and the list [self.disks],
    [_validate_disks] raises [DeviceValidationFailed] exactly when some
    assigned disk is not (the string of) a reported device; when every
    assigned disk is reported it returns, and no attribute has changed. *)
Theorem validate_disks_fails_iff_absent H s dir out (ds : list pyval) :
  attrs s CONFIG_DIR = Some (PStr dir) ->
  h_probe H (trace s) (dir +:+ "/scripts/get_devices.sh") = Some out ->
  attrs s disks = Some (PList ds) ->
  (raises (_validate_disks H s) DeviceValidationFailed
   <-> exists d, d ∈ ds /\ forall p, p ∈ Py.split " " out -> d <> PStr p) /\
  ((forall d, d ∈ ds -> exists p, p ∈ Py.split " " out /\ d = PStr p) ->
   (_validate_disks H s).1 = Ok tt /\
   attrs (_validate_disks H s).2 = attrs s).
Proof.
  intros Hdir Hout Hds.
  assert (Hrun : _validate_disks H s =
                 (validate_loop (Py.split " " out) ds,
                  {| attrs := attrs s;
                     trace := EvProbe (dir +:+ "/scripts/get_devices.sh")
                                :: trace s |})).
  { unfold _validate_disks. unfold bind at 1.
    rewrite (discover_disks_run H s dir out Hdir Hout). mrun.
    destruct (validate_loop (Py.split " " out) ds); reflexivity. }
  rewrite Hrun. unfold raises. simpl.
  destruct (validate_loop_cases (Py.split " " out) ds)
    as [[Hok Hall] | [Hbad (d & Hin & Hd)]].
  - rewrite Hok. split.
    + split.
      * intros [arg Harg]. discriminate.
      * intros (d & Hin & Hno). exfalso.
        apply Hall, in_strs_spec in Hin as (p & Hp & ->). by apply (Hno p).
    + intros _. split; reflexivity.
  - rewrite Hbad. split.
    + split.
      * intros _. exists d. split; [exact Hin |]. intros p Hp ->.
        assert (Py.in_strs (PStr p) (Py.split " " out) = true) as Ht
          by (apply in_strs_spec; eauto).
        congruence.
      * intros _. eexists. reflexivity.
    + intros Hall. exfalso.
      assert (Py.in_strs d (Py.split " " out) = true) as Ht
        by (apply in_strs_spec; auto).
      congruence.
Qed.

(** The disk file names four devices: a host with two of them is refused,
    a host with the four is accepted. *)
Lemma validate_disks_witness :
  raises (_validate_disks Lab.two_disks
            (Lab.resolved Lab.two_disks (PBool true)
                          (PStr "/etc/vsa/vsa_disks.json")))
         DeviceValidationFailed /\
  (_validate_disks Lab.four_disks
     (Lab.resolved Lab.four_disks (PBool true)
                   (PStr "/etc/vsa/vsa_disks.json"))).1 = Ok tt.
Proof.
  split.
  - apply (validate_disks_fails_iff_absent Lab.two_disks
             (Lab.resolved Lab.two_disks (PBool true)
                           (PStr "/etc/vsa/vsa_disks.json"))
             "/etc/vsa" "/dev/sdb /dev/sdc"
             [PStr "/dev/sdb"; PStr "/dev/sdc"; PStr "/dev/sdd"; PStr "/dev/sde"]);
      [reflexivity | reflexivity | reflexivity |].
    exists (PStr "/dev/sdd"). split.
    + apply list_elem_of_In. simpl. tauto.
    + intros p Hp. apply list_elem_of_In in Hp. simpl in Hp.
      destruct Hp as [<- | [<- | []]]; discriminate.
  - apply (validate_disks_fails_iff_absent Lab.four_disks
             (Lab.resolved Lab.four_disks (PBool true)
                           (PStr "/etc/vsa/vsa_disks.json"))
             "/etc/vsa" "/dev/sdb /dev/sdc /dev/sdd /dev/sde"
             [PStr "/dev/sdb"; PStr "/dev/sdc"; PStr "/dev/sdd"; PStr "/dev/sde"]);
      [reflexivity | reflexivity | reflexivity |].
    intros d Hd. apply list_elem_of_In in Hd. simpl in Hd.
    destruct Hd as [<- | [<- | [<- | [<- | []]]]]; eexists;
      (split; [apply list_elem_of_In; simpl | reflexivity]); tauto.
Defined.

(** ** C10: the document filled from a disk file *)


Lemma getitem_int_list (l : list pyval) (n : nat) (x : pyval) :
  l !! n = Some x -> Py.getitem_int (PList l) (Z.of_nat n) = Ok x.
Proof.
  intros Hx. unfold Py.getitem_int, Py.index.
  destruct (Z.leb_spec 0 (Z.of_nat n)); [| lia].
  by rewrite Nat2Z.id, Hx.
Qed.







(** The lists the loop works on are those of the disk file: Tier 0, then
    Tier 1, each in the order of the file. *)
Lemma make_list_from_tiered_run s (tiered : gmap string pyval)
    (t0 t1 : list pyval) :
  attrs s tiered_disks = Some (PDict tiered) ->
  tiered !! "Tier 0" = Some (PList t0) ->
  tiered !! "Tier 1" = Some (PList t1) ->
  existsb Py.truthy t0 = true ->
  existsb Py.truthy t1 = true ->
  (_make_list_from_tiered s).1 = Ok (PList (t0 ++ t1)) /\
  attrs (_make_list_from_tiered s).2 tier0List = Some (PList t0) /\
  attrs (_make_list_from_tiered s).2 tier1List = Some (PList t1).
Proof.
  intros Htiered H0 H1 Hany0 Hany1.
  unfold _make_list_from_tiered, extend_disks, Py.any. mrun.
  repeat split.
Qed.



(** ** C3: auto-tiering without a disk file *)

(** C3 (what the code does). The counter is not moved on in the branch that
    meets /dev/sdb: from the entry at which [self.disks[counter]] is
    /dev/sdb on, every entry of the document is labelled "Tier 0" and none
    is given a "Location". *)
Theorem sdb_branch_labels_every_later_entry_tier0
    (the_disks : pyval) (counter : Z) (Ds : list (gmap string pyval)) :
  Py.getitem_int the_disks counter = Ok (PStr "/dev/sdb") ->
  sdb_loop the_disks counter (PDict <$> Ds)
  = Ok (PDict <$> (insert "Tier" (PStr "Tier 0") <$> Ds)).
Proof.
  intros Hsdb. induction Ds as [| d Ds IH]; [reflexivity |].
  rewrite !fmap_cons. cbn [sdb_loop]. rewrite Hsdb. cbn [obind Py.eq_str].
  change (String.eqb "/dev/sdb" "/dev/sdb") with true. cbv iota.
  cbn [Py.setitem obind]. rewrite IH. reflexivity.
Qed.

(** /dev/sdb reported first, two entries to fill. *)
Lemma sdb_branch_witness :
  sdb_loop (PList [PStr "/dev/sdb"; PStr "/dev/sdc"]) 0
           [PDict Lab.blank_disk; PDict Lab.blank_disk]
  = Ok [PDict (<["Tier" := PStr "Tier 0"]> Lab.blank_disk);
        PDict (<["Tier" := PStr "Tier 0"]> Lab.blank_disk)].
Proof.
  apply (sdb_branch_labels_every_later_entry_tier0
           (PList [PStr "/dev/sdb"; PStr "/dev/sdc"]) 0
           [Lab.blank_disk; Lab.blank_disk]).
  reflexivity.
Defined.

(** When /dev/sdb is the last device reported, the entries are as the
    comment in the code describes them. *)
Example sdb_reported_last :
  sdb_loop (PList [PStr "/dev/sdc"; PStr "/dev/sdb"]) 0
           [PDict Lab.blank_disk; PDict Lab.blank_disk]
  = Ok [PDict (<["Size" := PStr ""]>
                 (<["Location" := PStr "/dev/sdc"]>
                    (<["Tier" := PStr "Tier 1"]> Lab.blank_disk)));
        PDict (<["Tier" := PStr "Tier 0"]> Lab.blank_disk)].
Proof. vm_compute. reflexivity. Qed.

(** ** C8: the time stamps and the access counter of vsa_config.json *)

Lemma eq_str_true (v : pyval) (s : string) :
  Py.eq_str v s = true <-> v = PStr s.
Proof.
  destruct v; simpl; try (split; [discriminate | intros [=]]).
  rewrite String.eqb_eq. split; [by intros -> | by intros [= ->]].
Qed.

Lemma eq_str_false (v : pyval) (s : string) :
  Py.eq_str v s = false <-> v <> PStr s.
Proof.
  rewrite <- eq_str_true. destruct (Py.eq_str v s); split; congruence.
Qed.

(** C8. [_update_vsa_config] on a record whose created_at is the empty
    string sets created_at and updated_at to the same reading of the clock
    and leaves file_access_count alone; on a record whose created_at is
    anything else it leaves created_at alone, sets updated_at to the
    reading of the clock taken for it, and adds exactly 1 to
    file_access_count.  The record written to the file is the updated
    one. *)
Theorem touch_created_once_then_counted
    H s path (config vsa_data : gmap string pyval) (created_at : pyval) :
  attrs s VSA_CONFIG_FILE = Some (PStr path) ->
  attrs s vsa_config_data = Some (PDict config) ->
  config !! "vsa_config" = Some (PDict vsa_data) ->
  vsa_data !! "created_at" = Some created_at ->
  h_open_w H (trace s) path = true ->
  (forall tr, h_write H tr path = true) ->
  let first_reading := h_utcnow H (EvOpenW path :: trace s) in
  let second_reading := h_utcnow H (EvUtcnow :: EvOpenW path :: trace s) in
  (created_at = PStr "" ->
   let touched :=
     <["updated_at" := PStr first_reading]>
       (<["created_at" := PStr first_reading]> vsa_data) in
   let saved := PDict (<["vsa_config" := PDict touched]> config) in
   (_update_vsa_config H s).1 = Ok tt /\
   attrs (_update_vsa_config H s).2 vsa_config_data = Some saved /\
   trace (_update_vsa_config H s).2
   = EvWriteJson path saved :: EvUtcnow :: EvOpenW path :: trace s /\
   touched !! "created_at" = touched !! "updated_at" /\
   touched !! "file_access_count" = vsa_data !! "file_access_count") /\
  (created_at <> PStr "" ->
   forall n : Z, vsa_data !! "file_access_count" = Some (PInt n) ->
   let touched :=
     <["file_access_count" := PInt (n + 1)]>
       (<["updated_at" := PStr second_reading]> vsa_data) in
   let saved := PDict (<["vsa_config" := PDict touched]> config) in
   (_update_vsa_config H s).1 = Ok tt /\
   attrs (_update_vsa_config H s).2 vsa_config_data = Some saved /\
   trace (_update_vsa_config H s).2
   = EvWriteJson path saved :: EvUtcnow :: EvUtcnow
       :: EvOpenW path :: trace s /\
   touched !! "created_at" = Some created_at /\
   touched !! "updated_at" = Some (PStr second_reading) /\
   touched !! "file_access_count" = Some (PInt (n + 1))).
Proof.
  intros Hfile Hdata Hconfig Hcreated Hopen Hwrite first_reading second_reading.
  split.
  - intros ->. intros touched saved.
    unfold _update_vsa_config. mrun. rewrite Hwrite. cbn.
    rewrite !insert_insert_eq.
    repeat split.
    + unfold touched. by rewrite lookup_insert_ne, lookup_insert_eq, lookup_insert_eq.
    + unfold touched. by rewrite !lookup_insert_ne.
  - intros Hne n Hcount touched saved.
    apply eq_str_false in Hne.
    unfold _update_vsa_config. mrun.
    rewrite lookup_insert_ne by done. mrun. rewrite Hwrite. cbn.
    rewrite !insert_insert_eq.
    repeat split.
    + unfold touched. by rewrite !lookup_insert_ne.
    + unfold touched. by rewrite lookup_insert_ne, lookup_insert_eq.
    + unfold touched. by rewrite lookup_insert_eq.
Qed.

(** The first installation, and a second run on the record it left. *)
Lemma touch_witness :
  (_update_vsa_config Lab.two_disks
     (Lab.configured Lab.two_disks (PBool false) PNone)).1 = Ok tt /\
  (_update_vsa_config Lab.two_disks
     (_update_vsa_config Lab.two_disks
        (Lab.configured Lab.two_disks (PBool false) PNone)).2).1 = Ok tt.
Proof.
  split.
  - apply (touch_created_once_then_counted Lab.two_disks
             (Lab.configured Lab.two_disks (PBool false) PNone)
             "/etc/vsa/vsa_config.json"
             (list_to_map [("vsa_config", PDict Lab.vsa_record)])
             Lab.vsa_record (PStr ""));
      try reflexivity.
  - apply (touch_created_once_then_counted Lab.two_disks
             (_update_vsa_config Lab.two_disks
                (Lab.configured Lab.two_disks (PBool false) PNone)).2
             "/etc/vsa/vsa_config.json"
             (<["vsa_config" :=
                  PDict (<["updated_at" := PStr "2016-03-01 10:00:03"]>
                           (<["created_at" := PStr "2016-03-01 10:00:03"]>
                              Lab.vsa_record))]>
                (list_to_map [("vsa_config", PDict Lab.vsa_record)]))
             (<["updated_at" := PStr "2016-03-01 10:00:03"]>
                (<["created_at" := PStr "2016-03-01 10:00:03"]>
                   Lab.vsa_record))
             (PStr "2016-03-01 10:00:03") ltac:(reflexivity) ltac:(reflexivity)
             ltac:(reflexivity) ltac:(reflexivity) ltac:(reflexivity)
             ltac:(reflexivity)) with (n := 0);
      [discriminate | reflexivity].
Defined.

(** ** Which events a method can add to the trace *)


Section Extends.

Context {A B : Type} (P : event -> Prop).

Lemma extends_ret (a : A) : extends P (ret a).
Proof. intros s. exists []. by split. Qed.

Lemma extends_lift (o : outcome A) : extends P (lift o).
Proof. intros s. exists []. by split. Qed.

Lemma extends_raise e arg : extends P (raise e arg : M A).
Proof. intros s. exists []. by split. Qed.

Lemma extends_sys_exit code : extends P (sys_exit code : M A).
Proof. intros s. exists []. by split. Qed.

Lemma extends_ask (q : list event -> A) : extends P (ask q).
Proof. intros s. exists []. by split. Qed.

Lemma extends_bind (m : M A) (k : A -> M B) :
  extends P m -> (forall a, extends P (k a)) -> extends P (bind m k).
Proof.
  intros Hm Hk s. unfold bind. destruct (Hm s) as (evs & Htr & Hevs).
  destruct (m s) as [[a | e arg | code] s']; simpl in Htr.
  - destruct (Hk a s') as (evs' & Htr' & Hevs').
    exists (evs' ++ evs). rewrite Htr', Htr, app_assoc.
    split; [reflexivity | by apply Forall_app].
  - by exists evs.
  - by exists evs.
Qed.

Lemma extends_try_except (m : M A) (handler : exc -> string -> M A) :
  extends P m -> (forall e arg, extends P (handler e arg)) ->
  extends P (try_except m handler).
Proof.
  intros Hm Hh s. unfold try_except. destruct (Hm s) as (evs & Htr & Hevs).
  destruct (m s) as [[a | e arg | code] s']; simpl in Htr.
  - by exists evs.
  - destruct (Hh e arg s') as (evs' & Htr' & Hevs').
    exists (evs' ++ evs). rewrite Htr', Htr, app_assoc.
    split; [reflexivity | by apply Forall_app].
  - by exists evs.
Qed.

Lemma extends_try_except_bare (m handler : M A) :
  extends P m -> extends P handler -> extends P (try_except_bare m handler).
Proof.
  intros Hm Hh s. unfold try_except_bare.
  destruct (Hm s) as (evs & Htr & Hevs).
  destruct (m s) as [[a | e arg | code] s']; simpl in Htr.
  - by exists evs.
  - destruct (Hh s') as (evs' & Htr' & Hevs').
    exists (evs' ++ evs). rewrite Htr', Htr, app_assoc.
    split; [reflexivity | by apply Forall_app].
  - destruct (Hh s') as (evs' & Htr' & Hevs').
    exists (evs' ++ evs). rewrite Htr', Htr, app_assoc.
    split; [reflexivity | by apply Forall_app].
Qed.

Lemma extends_only cls (handler : exc -> string -> M A) :
  (forall e arg, extends P (handler e arg)) ->
  forall e arg, extends P (only cls handler e arg).
Proof.
  intros Hh e arg. unfold only. destruct (decide (e = cls)); [apply Hh |].
  intros s. exists []. by split.
Qed.

End Extends.

Lemma extends_getattr P a : extends P (getattr a).
Proof.
  intros s. exists []. unfold getattr. by destruct (attrs s a).
Qed.

Lemma extends_setattr P a v : extends P (setattr a v).
Proof. intros s. exists []. by split. Qed.

Lemma extends_emit (P : event -> Prop) ev : P ev -> extends P (emit ev).
Proof. intros Hev s. exists [ev]. split; [reflexivity | by constructor]. Qed.

Lemma extends_as_path P v : extends P (as_path v).
Proof. destruct v; first [apply extends_ret | apply extends_raise]. Qed.

Lemma extends_networks_loop P l : extends P (networks_loop l).
Proof.
  induction l as [| network rest IH]; simpl; [apply extends_ret |].
  repeat first [ apply extends_bind; [| intros ?]
               | apply extends_lift | apply extends_getattr
               | apply extends_ret | exact IH ].
Qed.

(** If [m] leads from [s] to [s'], the trace has grown by events of [P]. *)
Lemma extends_run {A} P (m : M A) s r s' :
  extends P m -> m s = (r, s') ->
  exists evs, trace s' = evs ++ trace s /\ Forall P evs.
Proof. intros Hm Hrun. specialize (Hm s). by rewrite Hrun in Hm. Qed.

Ltac ext_step :=
  first
    [ apply extends_bind; [| intros ?]
    | apply extends_ret | apply extends_lift | apply extends_raise
    | apply extends_sys_exit | apply extends_getattr | apply extends_setattr
    | apply extends_ask | apply extends_as_path
    | apply extends_networks_loop
    | apply extends_emit; first [exact I | reflexivity]
    | apply extends_try_except; [| intros ? ?]
    | apply extends_try_except_bare
    | apply extends_only; intros ? ?
    | match goal with
      | |- extends _ (match ?x with _ => _ end) => destruct x
      end ].

Ltac ext :=
  unfold _pre_install_vsa, install_steps, steps_before_pool, _read_inputs, _read_network_input,
    _get_netmask_from_interface, _compute_gateway, _make_list_from_tiered,
    extend_disks, _create_installer_input_json, _initialize_default_json,
    _validate_disks, _discover_disks, for_in, _create_bridge,
    _create_storage_pool, _virtual_network_define,
    _virtual_storage_pool_define, _create_vsa_vm, _update_vsa_config,
    _read_configuration_input, _get_vsa_vm_status, _report_libvirt_error,
    _read_json, _do_operation, _vsa_domain_destroy, _vsa_network_destroy,
    _vsa_storage_pool_destroy, _roll_back_installation, rmtree,
    virt, open_w, write, read_text, utcnow, field2, get_vsa_data, set_vsa_data;
  repeat ext_step.

(** ** C4: the guard before an installation *)


Lemma extends_read_configuration_input H f :
  extends is_pre_install_event (_read_configuration_input H f).
Proof. ext. Qed.

Lemma extends_get_vsa_vm_status H :
  extends is_pre_install_event (_get_vsa_vm_status H).
Proof. ext. Qed.

(** C4. Once vsa_config.json is loaded and the state of the domain has been
    asked for: if the state code is 1 or 3, [install_vsa] exits with
    status 0 in the very state the query left, so that only events of
    loading the configuration and of the query have happened; for every
    other code [_pre_install_vsa] returns and [install_vsa] goes on with the
    steps of the installation; and a domain that is not found (libvirt
    error 42) gives the code 0. *)
Theorem guard_exits_only_on_state_1_or_3 H s0 f s1 s2 (code : Z) :
  attrs s0 VSA_CONFIG_FILE = Some f ->
  _read_configuration_input H f s0 = (Ok tt, s1) ->
  _get_vsa_vm_status H s1 = (Ok (PInt code), s2) ->
  let s3 := (setattr vsa_status (PInt code) s2).2 in
  (code = 1 \/ code = 3 ->
   install_vsa H s0 = (Exit 0, s3) /\
   exists evs, trace s3 = evs ++ trace s0 /\ Forall is_pre_install_event evs) /\
  (code <> 1 -> code <> 3 ->
   _pre_install_vsa H s0 = (Ok tt, s3) /\
   install_vsa H s0 = try_except (install_steps H) (install_handlers H) s3) /\
  (forall name,
     attrs s1 host_name = Some (PStr name) ->
     h_virt H (trace s1) (lookupByName name) = false ->
     h_last_error H (EvVirt (lookupByName name) false :: trace s1) = Some 42 ->
     code = 0).
Proof.
  intros Hfile Hconfig Hstatus s3.
  assert (Hpre : _pre_install_vsa H s0 =
                 ((if (code =? 1) || (code =? 3) then Exit 0 else Ok tt), s3)).
  { unfold _pre_install_vsa. mrun.
    destruct ((code =? 1) || (code =? 3)); reflexivity. }
  split; [| split].
  - intros Hcode.
    assert ((code =? 1) || (code =? 3) = true) as Hb
      by (destruct Hcode as [-> | ->]; reflexivity).
    rewrite Hb in Hpre. split.
    + unfold install_vsa, bind. by rewrite Hpre.
    + destruct (extends_run _ _ _ _ _
                  (extends_read_configuration_input H f) Hconfig)
        as (evs1 & Htr1 & Hevs1).
      destruct (extends_run _ _ _ _ _ (extends_get_vsa_vm_status H) Hstatus)
        as (evs2 & Htr2 & Hevs2).
      exists (evs2 ++ evs1). split; [| by apply Forall_app].
      unfold s3. simpl. by rewrite Htr2, Htr1, app_assoc.
  - intros H1 H3.
    assert ((code =? 1) || (code =? 3) = false) as Hb.
    { apply orb_false_intro; by apply Z.eqb_neq. }
    rewrite Hb in Hpre. split; [exact Hpre |].
    unfold install_vsa, bind. by rewrite Hpre.
  - intros name Hname Hlookup Herr. revert Hstatus.
    unfold _get_vsa_vm_status, _report_libvirt_error. mrun.
    by intros [= <- _].
Qed.

(** The domain is there and running. *)
Lemma guard_witness :
  install_vsa (Lab.with_state 1 (Lab.with_virt Lab.all_present Lab.two_disks))
              (Lab.fresh (PBool false) PNone)
  = (Exit 0,
     (setattr vsa_status (PInt 1)
        (_get_vsa_vm_status
           (Lab.with_state 1 (Lab.with_virt Lab.all_present Lab.two_disks))
           (Lab.configured Lab.two_disks (PBool false) PNone)).2).2).
Proof.
  apply (guard_exits_only_on_state_1_or_3
           (Lab.with_state 1 (Lab.with_virt Lab.all_present Lab.two_disks))
           (Lab.fresh (PBool false) PNone)
           (PStr "/etc/vsa/vsa_config.json")
           (Lab.configured Lab.two_disks (PBool false) PNone)
           (_get_vsa_vm_status
              (Lab.with_state 1 (Lab.with_virt Lab.all_present Lab.two_disks))
              (Lab.configured Lab.two_disks (PBool false) PNone)).2
           1);
    [reflexivity | reflexivity | reflexivity | left; reflexivity].
Defined.

(** ** Counting over a trace that has grown *)

Lemma count_app p (l1 l2 : list event) :
  count p (l1 ++ l2) = (count p l1 + count p l2)%nat.
Proof. unfold count. by rewrite List.filter_app, length_app. Qed.

Lemma count_none p (l : list event) :
  Forall (fun ev => p ev = false) l -> count p l = 0%nat.
Proof.
  unfold count. induction 1 as [| ev l Hev _ IH]; [reflexivity |].
  simpl. by rewrite Hev.
Qed.


(** A method that adds no event of [p] leaves the count of [p] alone. *)
Lemma count_kept {A} p (m : M A) s r s' :
  extends (fun ev => p ev = false) m -> m s = (r, s') ->
  count p (trace s') = count p (trace s).
Proof.
  intros Hm Hrun. destruct (extends_run _ m s r s' Hm Hrun) as (evs & -> & Hevs).
  by rewrite count_app, count_none.
Qed.


(** ** C1: the pool fails after the network is up *)





(** ** C2: tearing everything down *)

Lemma domain_destroy_raises_only H s e arg s' :
  _vsa_domain_destroy H s = (Raise e arg, s') -> e = DomainDestroyFailed.
Proof.
  unfold _vsa_domain_destroy, try_except.
  match goal with |- context [match ?m s with _ => _ end] =>
    destruct (m s) as [[? | ? ? | ?] ?] end;
    unfold raise; congruence.
Qed.

Lemma network_destroy_raises_only H s e arg s' :
  _vsa_network_destroy H s = (Raise e arg, s') -> e = NetworkDestroyFailed.
Proof.
  unfold _vsa_network_destroy, try_except.
  match goal with |- context [match ?m s with _ => _ end] =>
    destruct (m s) as [[? | ? ? | ?] ?] end;
    unfold raise; congruence.
Qed.

Lemma pool_destroy_raises_only H s e arg s' :
  _vsa_storage_pool_destroy H s = (Raise e arg, s') -> e = PoolDestroyFailed.
Proof.
  unfold _vsa_storage_pool_destroy, try_except.
  match goal with |- context [match ?m s with _ => _ end] =>
    destruct (m s) as [[? | ? ? | ?] ?] end;
    unfold raise; congruence.
Qed.

Lemma teardown_steps_in_turn H f :
  extends (fun ev => is_after_domain ev = false) (_read_configuration_input H f) /\
  extends (fun ev => is_after_domain ev = false) (_vsa_domain_destroy H) /\
  extends (fun ev => is_after_network ev = false) (_read_configuration_input H f) /\
  extends (fun ev => is_after_network ev = false) (_vsa_domain_destroy H) /\
  extends (fun ev => is_after_network ev = false) (_vsa_network_destroy H) /\
  extends (fun ev => is_rmtree ev = false) (_read_configuration_input H f) /\
  extends (fun ev => is_rmtree ev = false) (_vsa_domain_destroy H) /\
  extends (fun ev => is_rmtree ev = false) (_vsa_network_destroy H) /\
  extends (fun ev => is_rmtree ev = false) (_vsa_storage_pool_destroy H).
Proof. repeat split; ext. Qed.

(** C2 (amended). [destroy_vsa] takes the sub-steps in turn and stops at the
    first that fails.  A failure of the domain sub-step leaves as
    [DomainDestroyFailed] and no call on the network or on the pool is made
    and no directory is removed; a failure of the network sub-step leaves
    as [NetworkDestroyFailed] and no call on the pool is made and no
    directory is removed; a failure of the pool sub-step leaves as
    [PoolDestroyFailed] and no directory is removed.  Each sub-step has its
    own class of error. *)
Theorem destroy_stops_at_the_first_failure H s0 f s1 :
  attrs s0 VSA_CONFIG_FILE = Some f ->
  _read_configuration_input H f s0 = (Ok tt, s1) ->
  (forall e arg s2,
     _vsa_domain_destroy H s1 = (Raise e arg, s2) ->
     e = DomainDestroyFailed /\
     destroy_vsa H s0 = (Raise DomainDestroyFailed arg, s2) /\
     count is_after_domain (trace s2) = count is_after_domain (trace s0)) /\
  (forall b s2 e arg s3,
     _vsa_domain_destroy H s1 = (Ok b, s2) ->
     _vsa_network_destroy H s2 = (Raise e arg, s3) ->
     e = NetworkDestroyFailed /\
     destroy_vsa H s0 = (Raise NetworkDestroyFailed arg, s3) /\
     count is_after_network (trace s3) = count is_after_network (trace s0)) /\
  (forall b s2 s3 e arg s4,
     _vsa_domain_destroy H s1 = (Ok b, s2) ->
     _vsa_network_destroy H s2 = (Ok tt, s3) ->
     _vsa_storage_pool_destroy H s3 = (Raise e arg, s4) ->
     e = PoolDestroyFailed /\
     destroy_vsa H s0 = (Raise PoolDestroyFailed arg, s4) /\
     count is_rmtree (trace s4) = count is_rmtree (trace s0)).
Proof.
  intros Hfile Hconfig.
  destruct (teardown_steps_in_turn H f)
    as (Ac & Ad & Nc & Nd & Nn & Rc & Rd & Rn & Rp).
  split; [| split].
  - intros e arg s2 Hdom.
    pose proof (domain_destroy_raises_only _ _ _ _ _ Hdom) as ->.
    split; [reflexivity |]. split.
    + unfold destroy_vsa. mrun. reflexivity.
    + by rewrite (count_kept _ _ _ _ _ Ad Hdom), (count_kept _ _ _ _ _ Ac Hconfig).
  - intros b s2 e arg s3 Hdom Hnet.
    pose proof (network_destroy_raises_only _ _ _ _ _ Hnet) as ->.
    split; [reflexivity |]. split.
    + unfold destroy_vsa. mrun. reflexivity.
    + by rewrite (count_kept _ _ _ _ _ Nn Hnet), (count_kept _ _ _ _ _ Nd Hdom),
                 (count_kept _ _ _ _ _ Nc Hconfig).
  - intros b s2 s3 e arg s4 Hdom Hnet Hpool.
    pose proof (pool_destroy_raises_only _ _ _ _ _ Hpool) as ->.
    split; [reflexivity |]. split.
    + unfold destroy_vsa. mrun. reflexivity.
    + by rewrite (count_kept _ _ _ _ _ Rp Hpool), (count_kept _ _ _ _ _ Rn Hnet),
                 (count_kept _ _ _ _ _ Rd Hdom), (count_kept _ _ _ _ _ Rc Hconfig).
Qed.

(** The domain of the laboratory cannot be destroyed. *)
Lemma destroy_witness :
  destroy_vsa Lab.stubborn (Lab.fresh (PBool false) PNone)
  = (Raise DomainDestroyFailed "Failed to destroy and undefine the VSA domain: ",
     (_vsa_domain_destroy Lab.stubborn
        (Lab.configured Lab.two_disks (PBool false) PNone)).2).
Proof.
  destruct (destroy_stops_at_the_first_failure Lab.stubborn
              (Lab.fresh (PBool false) PNone) (PStr "/etc/vsa/vsa_config.json")
              (Lab.configured Lab.two_disks (PBool false) PNone)
              ltac:(reflexivity) ltac:(reflexivity)) as (Hdomain & _ & _).
  destruct (Hdomain DomainDestroyFailed
              "Failed to destroy and undefine the VSA domain: "
              (_vsa_domain_destroy Lab.stubborn
                 (Lab.configured Lab.two_disks (PBool false) PNone)).2
              ltac:(reflexivity)) as (_ & Hrun & _).
  exact Hrun.
Defined.

(** C2, as stated, fails: the domain cannot be destroyed, and no call is
    made on the network or on the pool, nor is the directory removed. *)
Lemma domain_failure_ends_the_teardown :
  In (EvVirt (domain_destroy "vsa1") false)
     (trace (destroy_vsa Lab.stubborn (Lab.fresh (PBool false) PNone)).2) /\
  ~ (0 < count is_after_domain
           (trace (destroy_vsa Lab.stubborn
                     (Lab.fresh (PBool false) PNone)).2))%nat.
Proof.
  split.
  - vm_compute. tauto.
  - vm_compute. lia.
Qed.

(** ** C7: where the netmask comes from *)

Lemma compute_gateway_state H s : (_compute_gateway H s).2 = s.
Proof.
  unfold _compute_gateway. munfold.
  destruct (attrs s vsa_ip) as [ip |]; [| reflexivity].
  destruct (Py.add_str ip "/"); try reflexivity.
  destruct (attrs s v_netmask) as [mask |]; [| reflexivity].
  destruct (Py.str_add a mask); try reflexivity.
  destruct (h_gateway H a0); reflexivity.
Qed.

Lemma networks_loop_subnet (nets : list pyval) s mask :
  attrs s v_netmask = Some mask ->
  (networks_loop nets s).2 = s /\
  forall nets', (networks_loop nets s).1 = Ok nets' ->
    Forall (fun network => Py.getitem network "Subnet" = Ok mask) nets'.
Proof.
  intros Hmask. induction nets as [| network rest [IHs IH]].
  - split; [reflexivity |]. intros nets' [= <-]. constructor.
  - cbn [networks_loop]. munfold.
    destruct network; try (split; [reflexivity | discriminate]). cbn.
    destruct (attrs s vsa_ip) as [ip |]; [| split; [reflexivity | discriminate]].
    rewrite Hmask.
    destruct (attrs s v_gateway) as [gateway |];
      [| split; [reflexivity | discriminate]].
    destruct (attrs s v_network_name) as [name |];
      [| split; [reflexivity | discriminate]].
    destruct (networks_loop rest s) as [[rest' | e arg | code] s'] eqn:Hrest;
      simpl in IHs; subst s'; (split; [reflexivity |]); try discriminate.
    intros nets' [= <-]. constructor; [| by apply IH].
    cbn. do 2 (rewrite lookup_insert_ne by done). by rewrite lookup_insert_eq.
Qed.

(** C7 (amended). The netmask is asked of the device named by the field
    "name" of "virtual_bridge" (the bridge), not of the one named by the
    field "interface".  When the request fails, [_read_network_input]
    raises [NetmaskRetrieveFailed], which leaves [install_vsa] right after
    the request; when it succeeds its answer is [self.v_netmask], and that
    attribute is what the document gets as "Subnet" of every network. *)
Theorem netmask_is_asked_of_the_bridge_device
    H s0 s path (cfg vb vn : gmap string pyval) (name bip iface ip : pyval) :
  _pre_install_vsa H s0 = (Ok tt, s) ->
  attrs s VSA_NETWORK_CONFIG_FILE = Some (PStr path) ->
  h_open_json H (trace s) path = Parsed (PDict cfg) ->
  cfg !! "virtual_bridge" = Some (PDict vb) ->
  vb !! "name" = Some name ->
  vb !! "ip_address" = Some bip ->
  vb !! "interface" = Some iface ->
  cfg !! "vsa_network" = Some (PDict vn) ->
  vn !! "ip_address" = Some ip ->
  let asked := EvOpenJson path :: trace s in
  (h_netmask H asked name = None ->
   raises (_read_network_input H s) NetmaskRetrieveFailed /\
   raises (install_vsa H s0) NetmaskRetrieveFailed /\
   trace (install_vsa H s0).2 = EvIoctl name :: asked) /\
  (forall netmask,
     h_netmask H asked name = Some netmask ->
     attrs (_read_network_input H s).2 v_netmask = Some (PStr netmask)) /\
  (forall s1 mask nets nets',
     attrs s1 v_netmask = Some mask ->
     (networks_loop nets s1).1 = Ok nets' ->
     Forall (fun network => Py.getitem network "Subnet" = Ok mask) nets').
Proof.
  intros Hpre Hfile Hjson Hvb Hname Hbip Hiface Hvn Hip asked.
  split; [| split].
  - intros Hnone.
    assert (Hrun : exists arg s',
               _read_network_input H s = (Raise NetmaskRetrieveFailed arg, s') /\
               trace s' = EvIoctl name :: asked).
    { unfold _read_network_input, _read_json, _get_netmask_from_interface.
      mrun. fold asked. rewrite Hnone. mrun. eauto. }
    destruct Hrun as (arg & s' & Hrun & Htrace).
    split; [| split].
    + exists arg. by rewrite Hrun.
    + exists arg. unfold install_vsa, install_steps, _read_inputs. mrun.
      reflexivity.
    + unfold install_vsa, install_steps, _read_inputs. mrun. exact Htrace.
  - intros netmask Hsome.
    unfold _read_network_input, _read_json, _get_netmask_from_interface.
    mrun. fold asked. rewrite Hsome. mrun.
    match goal with |- context [_compute_gateway H ?st] =>
      pose proof (compute_gateway_state H st) as Hst;
      destruct (_compute_gateway H st) as [[gateway | e arg | code] st']
    end; simpl in Hst; subst; reflexivity.
  - intros s1 mask nets nets' Hmask Hloop.
    by apply (networks_loop_subnet nets s1 mask Hmask).
Qed.

(** A bridge without an address, and a bridge with one. *)
Lemma netmask_witness :
  raises (install_vsa Lab.bridge_without_address (Lab.fresh (PBool false) PNone))
         NetmaskRetrieveFailed /\
  attrs (_read_network_input Lab.two_disks
           (_pre_install_vsa Lab.two_disks (Lab.fresh (PBool false) PNone)).2).2
        v_netmask
  = Some (PStr "255.255.255.0").
Proof.
  split.
  - apply (netmask_is_asked_of_the_bridge_device
             Lab.bridge_without_address (Lab.fresh (PBool false) PNone)
             (_pre_install_vsa Lab.bridge_without_address
                (Lab.fresh (PBool false) PNone)).2
             "/etc/vsa/vsa_network_config.json"
             (list_to_map
                [("virtual_bridge",
                  Lab.dict [("name", PStr "vsa-bridge");
                            ("ip_address", PStr "10.0.0.2");
                            ("interface", PStr "eth1")]);
                 ("vsa_network", Lab.dict [("ip_address", PStr "10.0.0.5")])])
             (list_to_map [("name", PStr "vsa-bridge");
                           ("ip_address", PStr "10.0.0.2");
                           ("interface", PStr "eth1")])
             (list_to_map [("ip_address", PStr "10.0.0.5")])
             (PStr "vsa-bridge") (PStr "10.0.0.2") (PStr "eth1")
             (PStr "10.0.0.5"));
      reflexivity.
  - apply (netmask_is_asked_of_the_bridge_device
             Lab.two_disks (Lab.fresh (PBool false) PNone)
             (_pre_install_vsa Lab.two_disks (Lab.fresh (PBool false) PNone)).2
             "/etc/vsa/vsa_network_config.json"
             (list_to_map
                [("virtual_bridge",
                  Lab.dict [("name", PStr "vsa-bridge");
                            ("ip_address", PStr "10.0.0.2");
                            ("interface", PStr "eth1")]);
                 ("vsa_network", Lab.dict [("ip_address", PStr "10.0.0.5")])])
             (list_to_map [("name", PStr "vsa-bridge");
                           ("ip_address", PStr "10.0.0.2");
                           ("interface", PStr "eth1")])
             (list_to_map [("ip_address", PStr "10.0.0.5")])
             (PStr "vsa-bridge") (PStr "10.0.0.2") (PStr "eth1")
             (PStr "10.0.0.5"));
      reflexivity.
Defined.

(** C7, as stated, fails: the configuration names the interface eth1,
    whose netmask is 255.255.0.0, and the netmask kept for the document is
    another one, that of the bridge. *)
Lemma netmask_is_not_that_of_the_interface :
  attrs (_read_network_input Lab.two_disks (Lab.fresh (PBool false) PNone)).2
        v_interface = Some (PStr "eth1") /\
  ~ (attrs (_read_network_input Lab.two_disks
              (Lab.fresh (PBool false) PNone)).2 v_netmask
     = PStr <$> h_netmask Lab.two_disks
                  [EvOpenJson "/etc/vsa/vsa_network_config.json"]
                  (PStr "eth1")).
Proof.
  split; [reflexivity |]. vm_compute. discriminate.
Qed.

(** C7, as stated, fails in its second half too: the interface named in the
    configuration has a netmask, the bridge has none, and the installation
    is given up. *)
Lemma resolvable_interface_still_aborts :
  h_netmask Lab.bridge_without_address
            [EvOpenJson "/etc/vsa/vsa_network_config.json"] (PStr "eth1")
  = Some "255.255.0.0" /\
  (_read_network_input Lab.bridge_without_address
     (Lab.fresh (PBool false) PNone)).1
  = Raise NetmaskRetrieveFailed
          "Cannot retrieve netmask from interface eth1  ".
Proof. split; reflexivity. Qed.

(** ** The documents written on the laboratory host *)


(** Auto-tiering, no disk file, /dev/sdb reported first: both entries are
    labelled Tier 0 and neither has got a device (C3). *)
Example document_with_sdb_first :
  disks_of (written_document Lab.two_disks
              (Lab.resolved Lab.two_disks (PBool true) PNone))
  = Ok (PList [PDict (<["Tier" := PStr "Tier 0"]> Lab.blank_disk);
               PDict (<["Tier" := PStr "Tier 0"]> Lab.blank_disk)]).
Proof. vm_compute. reflexivity. Qed.

(** Auto-tiering with the disk file of the laboratory (C10). *)
Example document_from_disk_file :
  disks_of (written_document Lab.four_disks
              (Lab.resolved Lab.four_disks (PBool true)
                            (PStr "/etc/vsa/vsa_disks.json")))
  = Ok (PList
          [PDict (<["Size" := PStr ""]>
                    (<["Location" := PStr "/dev/sdc"]> Lab.blank_disk));
           PDict (<["Size" := PStr ""]>
                    (<["Location" := PStr "/dev/sdb"]> Lab.blank_disk));
           PDict (<["Size" := PStr ""]>
                    (<["Tier" := PStr "Tier 1"]>
                       (<["Location" := PStr "/dev/sdd"]> Lab.blank_disk)));
           PDict (<["Size" := PStr ""]>
                    (<["Tier" := PStr "Tier 1"]>
                       (<["Location" := PStr "/dev/sde"]> Lab.blank_disk)))]).
Proof. vm_compute. reflexivity. Qed.

(** * Further properties of the Deployer *)

(** ** Strings *)

Lemma string_app_assoc (s1 s2 s3 : string) :
  (s1 +:+ s2) +:+ s3 = s1 +:+ (s2 +:+ s3).
Proof.
  induction s1 as [| c s1 IH]; [reflexivity |].
  change (String c ((s1 +:+ s2) +:+ s3) = String c (s1 +:+ (s2 +:+ s3))).
  by rewrite IH.
Qed.

Lemma string_app_nil_r (s : string) : s +:+ "" = s.
Proof.
  induction s as [| c s IH]; [reflexivity |].
  change (String c (s +:+ "") = String c s). by rewrite IH.
Qed.

(** ** The command that asks the installer for its default document *)

(** X2. [_create_installer_input_json] refuses a count of zero disks, and
    auto-tiering with a single disk, before any command is run; otherwise
    it runs the installer with the count of disks, with [-tiering] exactly
    when auto-tiering is enabled, and raises [DefaultJSONCreationFailed]
    exactly when that command exits with a non-zero status. *)
Theorem installer_input_checks_the_count_before_the_command
    H s (installer : string) (n : Z) (ao : pyval) :
  attrs s VSA_INSTALLER = Some (PStr installer) ->
  attrs s total_disks = Some (PInt n) ->
  attrs s is_AO_enabled = Some ao ->
  let command :=
    (installer +:+ " -create-default-json -disks ") +:+ Py.str_int n
    +:+ (if Py.truthy ao then " -tiering" else "") in
  let rc := h_sh H (trace s) command in
  (n = 0 ->
   _create_installer_input_json H s
   = (Raise InvalidInputException
            "Minimum number of disks must be 1. No disks are available", s)) /\
  (n <> 0 -> Py.truthy ao = true -> n <= 1 ->
   _create_installer_input_json H s
   = (Raise InvalidInputException
            "Cannot enable AO as only one disk is available", s)) /\
  (n <> 0 -> (Py.truthy ao = true -> 1 < n) ->
   trace (_create_installer_input_json H s).2 = EvSh command rc :: trace s /\
   (_create_installer_input_json H s).1
   = (if rc =? 0 then Ok tt
      else Raise DefaultJSONCreationFailed (Py.str_int rc))).
Proof.
  intros Hinst Htotal Hao command rc.
  split; [| split].
  - intros ->. unfold _create_installer_input_json. mrun. by destruct s.
  - intros Hn Htruthy Hle. unfold _create_installer_input_json. mrun.
    destruct (Z.eqb_spec n 0); [done |]. mrun.
    destruct (Z.gtb_spec n 1); [lia |]. by destruct s.
  - intros Hn Hmany. unfold _create_installer_input_json. mrun.
    destruct (Z.eqb_spec n 0); [done |]. mrun.
    subst command rc. destruct (Py.truthy ao) eqn:Htruthy; mrun.
    + destruct (Z.gtb_spec n 1); [| specialize (Hmany eq_refl); lia]. mrun.
      rewrite !string_app_assoc.
      destruct (_ =? 0); mrun; done.
    + rewrite string_app_nil_r.
      destruct (_ =? 0); mrun; done.
Qed.

(** Two disks without auto-tiering on the laboratory host. *)
Lemma installer_input_witness :
  (_create_installer_input_json Lab.two_disks
     (Lab.resolved Lab.two_disks (PBool false) PNone)).1 = Ok tt.
Proof.
  destruct (installer_input_checks_the_count_before_the_command
              Lab.two_disks (Lab.resolved Lab.two_disks (PBool false) PNone)
              "/opt/vsa_installer" 2 (PBool false)
              ltac:(reflexivity) ltac:(reflexivity) ltac:(reflexivity))
    as (_ & _ & Hrun).
  destruct Hrun as [_ Hout]; [discriminate | discriminate |].
  exact Hout.
Defined.

(** ** Running a method step by step *)

Section Steps.

Context {A B C : Type}.

Lemma run_bind_bind (m : M A) (f : A -> M B) (g : B -> M C) s :
  bind (bind m f) g s = bind m (fun x => bind (f x) g) s.
Proof. unfold bind. by destruct (m s) as [[a | e arg | c] s']. Qed.

Lemma run_bind_ret (a : A) (k : A -> M B) s : bind (ret a) k s = k a s.
Proof. reflexivity. Qed.

Lemma run_bind_raise e arg (k : A -> M B) s :
  bind (raise e arg) k s = (Raise e arg, s).
Proof. reflexivity. Qed.

Lemma run_bind_sys_exit code (k : A -> M B) s :
  bind (sys_exit code) k s = (Exit code, s).
Proof. reflexivity. Qed.

Lemma run_bind_ask (q : list event -> A) (k : A -> M B) s :
  bind (ask q) k s = k (q (trace s)) s.
Proof. reflexivity. Qed.

Lemma run_bind_lift (o : outcome A) (k : A -> M B) s :
  bind (lift o) k s =
  match o with
  | Ok a => k a s
  | Raise e arg => (Raise e arg, s)
  | Exit c => (Exit c, s)
  end.
Proof. unfold bind, lift. by destruct o. Qed.

End Steps.

Lemma run_bind_emit {B} ev (k : unit -> M B) s :
  bind (emit ev) k s = k tt {| attrs := attrs s; trace := ev :: trace s |}.
Proof. reflexivity. Qed.

Lemma run_bind_setattr {B} a v (k : unit -> M B) s :
  bind (setattr a v) k s =
  k tt {| attrs := fun b => if attr_beq b a then Some v else attrs s b;
          trace := trace s |}.
Proof. reflexivity. Qed.

Lemma run_bind_getattr {B} a v (k : pyval -> M B) s :
  attrs s a = Some v -> bind (getattr a) k s = k v s.
Proof. intros Hv. unfold bind, getattr. by rewrite Hv. Qed.

Lemma run_bind_getattr_unset {B} a (k : pyval -> M B) s :
  attrs s a = None ->
  bind (getattr a) k s
  = (Raise AttributeError "Deployer instance has no such attribute", s).
Proof. intros Hv. unfold bind, getattr. by rewrite Hv. Qed.

Lemma run_getattr a v s : attrs s a = Some v -> getattr a s = (Ok v, s).
Proof. intros Hv. unfold getattr. by rewrite Hv. Qed.

Lemma run_bind_ok {A B} (m : M A) (k : A -> M B) s a s' :
  m s = (Ok a, s') -> bind m k s = k a s'.
Proof. intros Hm. unfold bind. by rewrite Hm. Qed.

Lemma run_bind_raised {A B} (m : M A) (k : A -> M B) s e arg s' :
  m s = (Raise e arg, s') -> bind m k s = (Raise e arg, s').
Proof. intros Hm. unfold bind. by rewrite Hm. Qed.

Lemma run_bind_as_path {B} p (k : string -> M B) s :
  bind (as_path (PStr p)) k s = k p s.
Proof. reflexivity. Qed.

#[local] Arguments bind : simpl never.
#[local] Arguments getattr : simpl never.
#[local] Arguments setattr : simpl never.
#[local] Arguments try_except : simpl never.
#[local] Arguments try_except_bare : simpl never.
#[local] Arguments networks_loop : simpl never.

Ltac known_attr := cbn; first [eassumption | reflexivity].

Ltac mstep :=
  first
    [ rewrite run_bind_bind
    | rewrite run_bind_ret
    | rewrite run_bind_raise
    | rewrite run_bind_sys_exit
    | rewrite run_bind_ask
    | rewrite run_bind_emit
    | rewrite run_bind_setattr
    | rewrite run_bind_as_path
    | rewrite bind_do_operation
    | rewrite do_operation_run
    | erewrite run_bind_ok by
        first [eassumption | apply read_json_parsed; cbn; eassumption]
    | erewrite run_bind_raised by eassumption
    | erewrite run_bind_getattr by known_attr
    | erewrite run_getattr by known_attr
    | rewrite run_bind_lift ].

Ltac mgo :=
  unfold virt, open_w, write, read_text, utcnow, get_vsa_data, set_vsa_data,
    field2;
  repeat (mstep; cbn; use_facts; rewrite ?lookup_insert_eq).

(** ** Loading vsa_config.json *)

Lemma read_configuration_input_run
    H s path (config vsa_data : gmap string pyval)
    (network hostname pool autostart_field : pyval) (dir : string) :
  h_open_json H (trace s) path = Parsed (PDict config) ->
  config !! "vsa_config" = Some (PDict vsa_data) ->
  vsa_data !! "network_name" = Some network ->
  vsa_data !! "hostname" = Some hostname ->
  vsa_data !! "os_image_storagepool" = Some pool ->
  vsa_data !! "os_image_dir" = Some (PStr dir) ->
  vsa_data !! "autostart" = Some autostart_field ->
  let run := _read_configuration_input H (PStr path) s in
  let loaded := EvOpenJson path :: trace s in
  let looked := EvExists dir :: loaded in
  (attrs run.2 vsa_config_data = Some (PDict config) /\
   attrs run.2 v_network_name = Some network /\
   attrs run.2 host_name = Some hostname /\
   attrs run.2 os_image_storagepool = Some pool /\
   attrs run.2 pool_location = Some (PStr dir) /\
   attrs run.2 autostart = Some (PBool (Py.eq_str autostart_field "True"))) /\
  (forall a, attr_beq a vsa_config_data || attr_beq a v_network_name
             || attr_beq a host_name || attr_beq a os_image_storagepool
             || attr_beq a pool_location || attr_beq a autostart = false ->
             attrs run.2 a = attrs s a) /\
  run = (if h_exists H loaded dir then (Ok tt, run.2)
         else if h_makedirs H looked dir then (Ok tt, run.2)
              else (Raise OSError "makedirs failed", run.2)) /\
  trace run.2 = (if h_exists H loaded dir then looked
                 else EvMakedirs dir :: looked).
Proof.
  intros Hjson Hconfig Hnetwork Hhost Hpool Hdir Hauto run loaded looked.
  subst loaded looked. destruct run as [r after] eqn:Hrun. subst run.
  cbn [fst snd]. revert Hrun. unfold _read_configuration_input. mgo.
  destruct (h_exists H _ dir); mgo;
    [| destruct (h_makedirs H _ dir); mgo]; intros [= <- <-]; cbn;
    (repeat split; try reflexivity; intros a Ha; by destruct a).
Qed.

(** X10. After [_read_configuration_input] has loaded a record with its
    five fields, the attributes of the Deployer are these fields, whatever
    happens to the pool directory afterwards; [self.autostart] is [True]
    exactly when the field "autostart" is the string "True": any other
    value, the JSON boolean [true] included, gives [False]. *)
Theorem configuration_fields_become_attributes
    H s path (config vsa_data : gmap string pyval)
    (network hostname pool autostart_field : pyval) (dir : string) :
  h_open_json H (trace s) path = Parsed (PDict config) ->
  config !! "vsa_config" = Some (PDict vsa_data) ->
  vsa_data !! "network_name" = Some network ->
  vsa_data !! "hostname" = Some hostname ->
  vsa_data !! "os_image_storagepool" = Some pool ->
  vsa_data !! "os_image_dir" = Some (PStr dir) ->
  vsa_data !! "autostart" = Some autostart_field ->
  let after := (_read_configuration_input H (PStr path) s).2 in
  attrs after vsa_config_data = Some (PDict config) /\
  attrs after v_network_name = Some network /\
  attrs after host_name = Some hostname /\
  attrs after os_image_storagepool = Some pool /\
  attrs after pool_location = Some (PStr dir) /\
  (exists b, attrs after autostart = Some (PBool b) /\
             (b = true <-> autostart_field = PStr "True")) /\
  (autostart_field = PBool true -> attrs after autostart = Some (PBool false)).
Proof.
  intros Hjson Hconfig Hnetwork Hhost Hpool Hdir Hauto after.
  destruct (read_configuration_input_run H s path config vsa_data network
              hostname pool autostart_field dir Hjson Hconfig Hnetwork Hhost
              Hpool Hdir Hauto) as ((A1 & A2 & A3 & A4 & A5 & A6) & _).
  repeat split; try assumption.
  - exists (Py.eq_str autostart_field "True").
    split; [exact A6 | apply eq_str_true].
  - intros ->. exact A6.
Qed.

(** vsa_config.json of the laboratory asks for the autostart. *)
Lemma configuration_fields_witness :
  attrs (_read_configuration_input Lab.two_disks
           (PStr "/etc/vsa/vsa_config.json")
           (Lab.fresh (PBool false) PNone)).2 host_name
  = Some (PStr "vsa1").
Proof.
  apply (configuration_fields_become_attributes Lab.two_disks
           (Lab.fresh (PBool false) PNone) "/etc/vsa/vsa_config.json"
           (list_to_map [("vsa_config", PDict Lab.vsa_record)])
           Lab.vsa_record (PStr "vsa-network") (PStr "vsa1")
           (PStr "vsa-storage-pool") (PStr "True") "/mnt/state/vsa");
    reflexivity.
Defined.

(** X11. Loading the configuration looks whether the pool directory
    exists: a directory that is there is left alone; one that is missing is
    created, also when the caller is [destroy_vsa]; if it cannot be created
    the [OSError] leaves the method as it is. *)
Theorem pool_directory_is_created_when_missing
    H s path (config vsa_data : gmap string pyval)
    (network hostname pool autostart_field : pyval) (dir : string) :
  h_open_json H (trace s) path = Parsed (PDict config) ->
  config !! "vsa_config" = Some (PDict vsa_data) ->
  vsa_data !! "network_name" = Some network ->
  vsa_data !! "hostname" = Some hostname ->
  vsa_data !! "os_image_storagepool" = Some pool ->
  vsa_data !! "os_image_dir" = Some (PStr dir) ->
  vsa_data !! "autostart" = Some autostart_field ->
  let run := _read_configuration_input H (PStr path) s in
  let loaded := EvOpenJson path :: trace s in
  let looked := EvExists dir :: loaded in
  (h_exists H loaded dir = true ->
   run.1 = Ok tt /\ trace run.2 = looked) /\
  (h_exists H loaded dir = false ->
   trace run.2 = EvMakedirs dir :: looked /\
   run.1 = (if h_makedirs H looked dir then Ok tt
            else Raise OSError "makedirs failed")).
Proof.
  intros Hjson Hconfig Hnetwork Hhost Hpool Hdir Hauto run loaded looked.
  destruct (read_configuration_input_run H s path config vsa_data network
              hostname pool autostart_field dir Hjson Hconfig Hnetwork Hhost
              Hpool Hdir Hauto) as (_ & _ & Hrun & Htrace).
  cbv zeta in Hrun, Htrace. fold run loaded looked in Hrun, Htrace.
  split; intros Hexists; rewrite Hexists in Hrun, Htrace.
  - split; [by rewrite Hrun | exact Htrace].
  - split; [exact Htrace |]. rewrite Hrun.
    by destruct (h_makedirs H looked dir).
Qed.

(** A host on which the pool directory is missing. *)
Lemma pool_directory_witness :
  trace (_read_configuration_input Lab.no_pool_directory
           (PStr "/etc/vsa/vsa_config.json")
           (Lab.fresh (PBool false) PNone)).2
  = [EvMakedirs "/mnt/state/vsa"; EvExists "/mnt/state/vsa";
     EvOpenJson "/etc/vsa/vsa_config.json"].
Proof.
  apply (pool_directory_is_created_when_missing Lab.no_pool_directory
           (Lab.fresh (PBool false) PNone) "/etc/vsa/vsa_config.json"
           (list_to_map [("vsa_config", PDict Lab.vsa_record)])
           Lab.vsa_record (PStr "vsa-network") (PStr "vsa1")
           (PStr "vsa-storage-pool") (PStr "True") "/mnt/state/vsa");
    reflexivity.
Defined.

(** ** The query of the domain's state *)

(** X12. When the domain cannot be looked up, or its state cannot be read,
    and the last libvirt error is not 42 (no domain), the installation is
    given up with [VsaStatusFailed] right after the query; when libvirt
    has recorded no error at all, the [TypeError] of [err[0]] leaves
    [install_vsa] in the same way. *)
Theorem status_error_gives_the_installation_up H s0 f s1 (name : string) :
  attrs s0 VSA_CONFIG_FILE = Some f ->
  _read_configuration_input H f s0 = (Ok tt, s1) ->
  attrs s1 host_name = Some (PStr name) ->
  let found := h_virt H (trace s1) (lookupByName name) in
  let t1 := EvVirt (lookupByName name) found :: trace s1 in
  let read := h_virt H t1 (domain_state name) in
  let asked := if found then EvVirt (domain_state name) read :: t1 else t1 in
  found && read = false ->
  (forall code,
     h_last_error H asked = Some code -> code <> 42 ->
     install_vsa H s0 =
     (Raise VsaStatusFailed "",
      {| attrs := attrs s1; trace := EvLastError :: asked |})) /\
  (h_last_error H asked = None ->
   install_vsa H s0 =
   (Raise TypeError "'NoneType' object has no attribute '__getitem__'",
    {| attrs := attrs s1; trace := EvLastError :: asked |})).
Proof.
  intros Hfile Hconfig Hname found t1 read asked Hfailed.
  assert (Hstatus : _get_vsa_vm_status H s1 =
            bind (_report_libvirt_error H) (fun _ => ret (PInt 0))
                 {| attrs := attrs s1; trace := asked |}).
  { unfold _get_vsa_vm_status, try_except_bare. mgo. fold found.
    subst asked. destruct found; mgo; [| reflexivity].
    fold t1. fold read. simpl in Hfailed. rewrite Hfailed. mgo.
    reflexivity. }
  split.
  - intros code Herr Hcode.
    unfold install_vsa, _pre_install_vsa. mgo.
    unfold bind at 1. rewrite Hstatus.
    unfold _report_libvirt_error. mgo.
    destruct (Z.eqb_spec code 42); [done |]. reflexivity.
  - intros Herr.
    unfold install_vsa, _pre_install_vsa. mgo.
    unfold bind at 1. rewrite Hstatus.
    unfold _report_libvirt_error. mgo. reflexivity.
Qed.

(** libvirt does not answer on the laboratory host. *)
Lemma status_error_witness :
  (install_vsa Lab.libvirt_down (Lab.fresh (PBool false) PNone)).1
  = Raise VsaStatusFailed "".
Proof.
  destruct (status_error_gives_the_installation_up Lab.libvirt_down
              (Lab.fresh (PBool false) PNone)
              (PStr "/etc/vsa/vsa_config.json")
              (Lab.configured Lab.two_disks (PBool false) PNone) "vsa1"
              ltac:(reflexivity) ltac:(reflexivity) ltac:(reflexivity)
              ltac:(reflexivity)) as [Hother _].
  by rewrite (Hother 38 ltac:(reflexivity) ltac:(discriminate)).
Defined.

(** ** Creating the appliance *)

(** X15. [_create_vsa_vm]: when the installer exits with a non-zero status
    [VMCreateFailed] is raised and nothing else is done: vsa_config.json is
    not opened and no autostart is asked for.  When the installer succeeds
    the record is updated; a failure of that update leaves the method
    before the autostart; after a successful update [virsh autostart] is
    run exactly when [self.autostart] is true, and its exit status is not
    looked at. *)
Theorem create_vsa_vm_steps H s (installer package : string) :
  attrs s VSA_INSTALLER = Some (PStr installer) ->
  attrs s VSA_PACKAGE = Some (PStr package) ->
  let op := ((installer +:+ " -no-prompt ") +:+ "default-input.json ")
            +:+ package in
  let rc := h_sh H (trace s) op in
  let s1 := {| attrs := attrs s; trace := EvSh op rc :: trace s |} in
  (rc <> 0 ->
   _create_vsa_vm H s = (Raise VMCreateFailed "VSA installation failed", s1)) /\
  (rc = 0 -> forall e arg s2,
     _update_vsa_config H s1 = (Raise e arg, s2) ->
     _create_vsa_vm H s = (Raise e arg, s2)) /\
  (rc = 0 -> forall s2 (auto : bool) (name : string),
     _update_vsa_config H s1 = (Ok tt, s2) ->
     attrs s2 autostart = Some (PBool auto) ->
     attrs s2 host_name = Some (PStr name) ->
     _create_vsa_vm H s =
     (Ok tt,
      if auto then
        {| attrs := attrs s2;
           trace := EvSh ("virsh autostart " +:+ name)
                         (h_sh H (trace s2) ("virsh autostart " +:+ name))
                      :: trace s2 |}
      else s2)).
Proof.
  intros Hinst Hpkg op rc s1. subst rc s1 op.
  split; [| split].
  - intros Hrc. apply Z.eqb_neq in Hrc.
    unfold _create_vsa_vm. mgo. reflexivity.
  - intros Hrc e arg s2 Hupdate. apply Z.eqb_eq in Hrc.
    unfold _create_vsa_vm. mgo. cbn [negb]. mgo. reflexivity.
  - intros Hrc s2 auto name Hupdate Hauto Hname. apply Z.eqb_eq in Hrc.
    unfold _create_vsa_vm. mgo. cbn [negb]. mgo.
    destruct auto; mgo; [reflexivity | by destruct s2].
Qed.

(** The installer of the laboratory fails. *)
Lemma create_vsa_vm_witness :
  (_create_vsa_vm Lab.installer_fails
     (Lab.configured Lab.two_disks (PBool false) PNone)).1
  = Raise VMCreateFailed "VSA installation failed".
Proof.
  destruct (create_vsa_vm_steps Lab.installer_fails
              (Lab.configured Lab.two_disks (PBool false) PNone)
              "/opt/vsa_installer" "/opt/vsa.img"
              ltac:(reflexivity) ltac:(reflexivity)) as [Hfail _].
  by rewrite Hfail.
Defined.

(** ** A failed update of vsa_config.json *)

(** X18. [_update_vsa_config] opens vsa_config.json for writing before it
    looks at the record.  If the file cannot be opened nothing has changed.
    If the record has no "created_at", or if it was created before and its
    "file_access_count" is missing, [UpdateConfigFailed] is raised when the
    file is already open and before anything is written to it; in the
    second case "updated_at" has already been changed in memory. *)
Theorem failed_update_leaves_the_file_unwritten
    H s path (config vsa_data : gmap string pyval) :
  attrs s VSA_CONFIG_FILE = Some (PStr path) ->
  attrs s vsa_config_data = Some (PDict config) ->
  config !! "vsa_config" = Some (PDict vsa_data) ->
  let failure := Raise UpdateConfigFailed "Updating VSA config file failed" in
  let opened := EvOpenW path :: trace s in
  (h_open_w H (trace s) path = false ->
   _update_vsa_config H s = (failure, {| attrs := attrs s; trace := opened |})) /\
  (h_open_w H (trace s) path = true -> vsa_data !! "created_at" = None ->
   _update_vsa_config H s
   = (failure, {| attrs := attrs s; trace := EvUtcnow :: opened |})) /\
  (h_open_w H (trace s) path = true ->
   forall created_at, vsa_data !! "created_at" = Some created_at ->
   created_at <> PStr "" -> vsa_data !! "file_access_count" = None ->
   (_update_vsa_config H s).1 = failure /\
   trace (_update_vsa_config H s).2 = EvUtcnow :: EvUtcnow :: opened /\
   attrs (_update_vsa_config H s).2 vsa_config_data
   = Some (PDict (<["vsa_config" :=
                      PDict (<["updated_at" :=
                                 PStr (h_utcnow H (EvUtcnow :: opened))]>
                               vsa_data)]> config))).
Proof.
  intros Hfile Hdata Hconfig failure opened. subst failure opened.
  split; [| split].
  - intros Hopen. unfold _update_vsa_config, try_except. mgo. reflexivity.
  - intros Hopen Hnone. unfold _update_vsa_config, try_except. mgo.
    reflexivity.
  - intros Hopen created_at Hcreated Hne Hnone.
    apply eq_str_false in Hne.
    destruct (_update_vsa_config H s) as [r after] eqn:Hrun.
    revert Hrun. unfold _update_vsa_config, try_except. mgo.
    rewrite lookup_insert_ne by done. rewrite Hnone. mgo.
    intros [= <- <-]. repeat split.
Qed.

(** vsa_config.json of the laboratory is read-only. *)
Lemma failed_update_witness :
  (_update_vsa_config Lab.read_only
     (Lab.configured Lab.two_disks (PBool false) PNone)).1
  = Raise UpdateConfigFailed "Updating VSA config file failed".
Proof.
  destruct (failed_update_leaves_the_file_unwritten Lab.read_only
              (Lab.configured Lab.two_disks (PBool false) PNone)
              "/etc/vsa/vsa_config.json"
              (list_to_map [("vsa_config", PDict Lab.vsa_record)])
              Lab.vsa_record
              ltac:(reflexivity) ltac:(reflexivity) ltac:(reflexivity))
    as [Hclosed _].
  by rewrite Hclosed.
Defined.

(** ** A teardown that succeeds *)

Section Teardown.

Variable H : host.
Hypothesis Hvirt : forall tr c, h_virt H tr c = true.

Lemma domain_destroy_succeeds s n :
  attrs s host_name = Some (PStr n) ->
  _vsa_domain_destroy H s =
  (Ok true,
   {| attrs := attrs s;
      trace := EvVirt (domain_undefine n) true
               :: EvVirt (domain_destroy n) true
               :: EvVirt (lookupByName n) true :: trace s |}).
Proof.
  intros Hname. unfold _vsa_domain_destroy, try_except. mgo.
  rewrite Hvirt. mgo. rewrite Hvirt. mgo. rewrite Hvirt. mgo. reflexivity.
Qed.

Lemma network_destroy_succeeds s n :
  attrs s v_network_name = Some (PStr n) ->
  _vsa_network_destroy H s =
  (Ok tt,
   {| attrs := attrs s;
      trace := EvVirt (network_undefine n) true
               :: EvVirt (network_destroy n) true
               :: EvVirt (networkLookupByName n) true :: trace s |}).
Proof.
  intros Hname. unfold _vsa_network_destroy, try_except. mgo.
  rewrite Hvirt. mgo. rewrite Hvirt. mgo. rewrite Hvirt. reflexivity.
Qed.

Lemma pool_destroy_succeeds s n :
  attrs s os_image_storagepool = Some (PStr n) ->
  _vsa_storage_pool_destroy H s =
  (Ok tt,
   {| attrs := attrs s;
      trace := EvVirt (pool_undefine n) true
               :: EvVirt (pool_destroy n) true
               :: EvVirt (storagePoolLookupByName n) true :: trace s |}).
Proof.
  intros Hname. unfold _vsa_storage_pool_destroy, try_except. mgo.
  rewrite Hvirt. mgo. rewrite Hvirt. mgo. rewrite Hvirt. reflexivity.
Qed.

End Teardown.

(** X16. When every call on the connection succeeds, [destroy_vsa] looks up,
    destroys and undefines the domain, then the network, then the storage
    pool, each under the name found in vsa_config.json, and only then
    removes the directory of the pool; it returns normally. *)
Theorem destroy_tears_down_in_order
    H s0 f s1 (domain network pool directory : string) :
  attrs s0 VSA_CONFIG_FILE = Some f ->
  _read_configuration_input H f s0 = (Ok tt, s1) ->
  attrs s1 host_name = Some (PStr domain) ->
  attrs s1 v_network_name = Some (PStr network) ->
  attrs s1 os_image_storagepool = Some (PStr pool) ->
  attrs s1 pool_location = Some (PStr directory) ->
  (forall tr c, h_virt H tr c = true) ->
  destroy_vsa H s0 =
  (Ok tt,
   {| attrs := attrs s1;
      trace := [EvRmtree directory;
                EvVirt (pool_undefine pool) true;
                EvVirt (pool_destroy pool) true;
                EvVirt (storagePoolLookupByName pool) true;
                EvVirt (network_undefine network) true;
                EvVirt (network_destroy network) true;
                EvVirt (networkLookupByName network) true;
                EvVirt (domain_undefine domain) true;
                EvVirt (domain_destroy domain) true;
                EvVirt (lookupByName domain) true] ++ trace s1 |}).
Proof.
  intros Hfile Hconfig Hdomain Hnetwork Hpool Hdir Hvirt.
  unfold destroy_vsa, try_except. mgo.
  erewrite run_bind_ok
    by (apply domain_destroy_succeeds; [exact Hvirt | eassumption]).
  erewrite run_bind_ok
    by (apply network_destroy_succeeds; [exact Hvirt | eassumption]).
  erewrite run_bind_ok
    by (apply pool_destroy_succeeds; [exact Hvirt | eassumption]).
  unfold rmtree. mgo. reflexivity.
Qed.

(** Everything is there on the laboratory host. *)
Lemma destroy_in_order_witness :
  (destroy_vsa Lab.installed (Lab.fresh (PBool false) PNone)).1 = Ok tt.
Proof.
  by rewrite (destroy_tears_down_in_order Lab.installed
                (Lab.fresh (PBool false) PNone)
                (PStr "/etc/vsa/vsa_config.json")
                (Lab.configured Lab.two_disks (PBool false) PNone)
                "vsa1" "vsa-network" "vsa-storage-pool" "/mnt/state/vsa"
                ltac:(reflexivity) ltac:(reflexivity) ltac:(reflexivity)
                ltac:(reflexivity) ltac:(reflexivity) ltac:(reflexivity)
                ltac:(reflexivity)).
Defined.

(** ** The loops over the entries of "Disks" *)

Lemma plain_loop_run (ds : list pyval) (Ds : list (gmap string pyval)) :
  forall k : nat,
    (k + length Ds <= length ds)%nat ->
    plain_loop (PList ds) (Z.of_nat k) (PDict <$> Ds)
    = Ok (PDict <$> zip_with (fun d location => placed location d)
                             Ds (drop k ds)).
Proof.
  induction Ds as [| d Ds IH]; intros k Hk; [reflexivity |].
  cbn [length] in Hk. rewrite fmap_cons. cbn [plain_loop].
  destruct (lookup_lt_is_Some_2 ds k) as [location Hloc]; [lia |].
  rewrite (getitem_int_list ds k location Hloc). cbn [obind Py.setitem].
  replace (Z.of_nat k + 1) with (Z.of_nat (S k)) by lia.
  rewrite (IH (S k)) by lia. cbn [obind].
  by rewrite (drop_S ds location k Hloc).
Qed.

Lemma plain_loop_short (ds : list pyval) (Ds : list (gmap string pyval)) :
  forall k : nat,
    (k <= length ds < k + length Ds)%nat ->
    plain_loop (PList ds) (Z.of_nat k) (PDict <$> Ds)
    = Raise IndexError "list index out of range".
Proof.
  induction Ds as [| d Ds IH]; intros k Hk; [cbn [length] in Hk; lia |].
  cbn [length] in Hk. rewrite fmap_cons. cbn [plain_loop].
  destruct (decide (k = length ds)) as [-> | Hne].
  - unfold Py.getitem_int, Py.index.
    destruct (Z.leb_spec 0 (Z.of_nat (length ds))); [| lia].
    by rewrite Nat2Z.id, lookup_ge_None_2.
  - destruct (lookup_lt_is_Some_2 ds k) as [location Hloc]; [lia |].
    rewrite (getitem_int_list ds k location Hloc). cbn [obind Py.setitem].
    replace (Z.of_nat k + 1) with (Z.of_nat (S k)) by lia.
    by rewrite (IH (S k)) by lia.
Qed.

(** X13. Without auto-tiering the entries of "Disks" get the devices of
    [self.disks] in order, each with an empty "Size", when there are at
    least as many devices as entries (further devices are not used); when
    the document has more entries than there are devices, the loop ends in
    an [IndexError]. *)
Theorem plain_loop_places_the_disks_in_order
    (ds : list pyval) (Ds : list (gmap string pyval)) :
  ((length Ds <= length ds)%nat ->
   plain_loop (PList ds) 0 (PDict <$> Ds)
   = Ok (PDict <$> zip_with (fun d location => placed location d) Ds ds)) /\
  ((length ds < length Ds)%nat ->
   plain_loop (PList ds) 0 (PDict <$> Ds)
   = Raise IndexError "list index out of range").
Proof.
  split; intros Hlen.
  - apply (plain_loop_run ds Ds 0%nat). lia.
  - apply (plain_loop_short ds Ds 0%nat). lia.
Qed.

(** Three entries and two devices. *)
Lemma plain_loop_witness :
  plain_loop (PList [PStr "/dev/sdb"; PStr "/dev/sdc"]) 0
             (replicate 3 (PDict Lab.blank_disk))
  = Raise IndexError "list index out of range".
Proof.
  apply (plain_loop_places_the_disks_in_order
           [PStr "/dev/sdb"; PStr "/dev/sdc"] (replicate 3 Lab.blank_disk)).
  simpl. lia.
Defined.

Lemma sdb_loop_run (ds : list pyval) (Ds : list (gmap string pyval)) :
  forall n k : nat,
    (k + n <= length ds)%nat ->
    (forall i d, (k <= i < k + n)%nat -> ds !! i = Some d ->
                 Py.eq_str d "/dev/sdb" = false) ->
    ds !! (k + n)%nat = Some (PStr "/dev/sdb") \/ (length Ds <= n)%nat ->
    sdb_loop (PList ds) (Z.of_nat k) (PDict <$> Ds)
    = Ok (PDict <$>
            (zip_with (fun d location => placed_tier1 location d)
                      (take n Ds) (drop k ds)
             ++ (insert "Tier" (PStr "Tier 0") <$> drop n Ds))).
Proof.
  induction Ds as [| d Ds IH]; intros n k Hk Hother Hend.
  - by rewrite take_nil, drop_nil.
  - rewrite fmap_cons. cbn [sdb_loop]. destruct n as [| n].
    + destruct Hend as [Hsdb | Hlen]; [| cbn [length] in Hlen; lia].
      rewrite Nat.add_0_r in Hsdb.
      rewrite (getitem_int_list ds k _ Hsdb). cbn [obind Py.eq_str].
      change (String.eqb "/dev/sdb" "/dev/sdb") with true. cbv iota.
      cbn [Py.setitem obind].
      rewrite (IH 0%nat k) by (try done; rewrite Nat.add_0_r; by left).
      reflexivity.
    + destruct (lookup_lt_is_Some_2 ds k) as [location Hloc]; [lia |].
      rewrite (getitem_int_list ds k location Hloc). cbn [obind].
      rewrite (Hother k location) by (done || lia).
      cbn [Py.setitem obind].
      replace (Z.of_nat k + 1) with (Z.of_nat (S k)) by lia.
      rewrite (IH n (S k)).
      * cbn [obind]. by rewrite (drop_S ds location k Hloc).
      * lia.
      * intros i x Hi. apply Hother. lia.
      * destruct Hend as [Hsdb | Hlen].
        -- left. by replace (S k + n)%nat with (k + S n)%nat by lia.
        -- right. cbn [length] in Hlen. lia.
Qed.

(** X14. With auto-tiering and no disk file, the entries of "Disks" that
    come before the position of /dev/sdb in [self.disks] get the devices at
    their positions, each labelled "Tier 1" and with an empty "Size"; all
    entries from that position on are only labelled "Tier 0".  When the
    entries run out before /dev/sdb is met, all of them are "Tier 1" and
    none is "Tier 0". *)
Theorem sdb_loop_places_the_disks_before_sdb
    (ds : list pyval) (Ds : list (gmap string pyval)) (n : nat) :
  (n <= length ds)%nat ->
  (forall i d, (i < n)%nat -> ds !! i = Some d ->
               Py.eq_str d "/dev/sdb" = false) ->
  ds !! n = Some (PStr "/dev/sdb") \/ (length Ds <= n)%nat ->
  sdb_loop (PList ds) 0 (PDict <$> Ds)
  = Ok (PDict <$>
          (zip_with (fun d location => placed_tier1 location d) (take n Ds) ds
           ++ (insert "Tier" (PStr "Tier 0") <$> drop n Ds))).
Proof.
  intros Hn Hother Hend.
  apply (sdb_loop_run ds Ds n 0%nat); [lia | | exact Hend].
  intros i d Hi. apply Hother. lia.
Qed.

(** /dev/sdb is the second of three devices. *)
Lemma sdb_loop_witness :
  sdb_loop (PList [PStr "/dev/sdc"; PStr "/dev/sdb"; PStr "/dev/sdd"]) 0
           (replicate 3 (PDict Lab.blank_disk))
  = Ok [PDict (placed_tier1 (PStr "/dev/sdc") Lab.blank_disk);
        PDict (<["Tier" := PStr "Tier 0"]> Lab.blank_disk);
        PDict (<["Tier" := PStr "Tier 0"]> Lab.blank_disk)].
Proof.
  apply (sdb_loop_places_the_disks_before_sdb
           [PStr "/dev/sdc"; PStr "/dev/sdb"; PStr "/dev/sdd"]
           (replicate 3 Lab.blank_disk) 1%nat).
  - simpl. lia.
  - intros [| i] d Hi; [| lia]. by intros [= <-].
  - by left.
Defined.

(** ** Placeholders in the templates *)







(** ** Which exceptions a method can raise *)

Section Failures.

Context {A B : Type} (F : exc -> Prop) (X : Z -> Prop).

Lemma fails_ret (a : A) : fails_only F X (ret a).
Proof. by intros s. Qed.

Lemma fails_ask (q : list event -> A) : fails_only F X (ask q).
Proof. by intros s. Qed.

Lemma fails_raise e arg : F e -> fails_only F X (raise e arg : M A).
Proof. by intros He s. Qed.

Lemma fails_sys_exit code : X code -> fails_only F X (sys_exit code : M A).
Proof. by intros Hc s. Qed.

Lemma fails_lift (o : outcome A) : pure_fails F o -> fails_only F X (lift o).
Proof. intros Ho s. by destruct o. Qed.

Lemma fails_bind (m : M A) (k : A -> M B) :
  fails_only F X m -> (forall a, fails_only F X (k a)) ->
  fails_only F X (bind m k).
Proof.
  intros Hm Hk s. unfold bind. specialize (Hm s).
  destruct (m s) as [[a | e arg | code] s']; [apply Hk | exact Hm | exact Hm].
Qed.

(** A handler for every exception: what the body raises does not matter. *)
Lemma fails_try_except (m : M A) (handler : exc -> string -> M A) :
  fails_only (fun _ => True) X m ->
  (forall e arg, fails_only F X (handler e arg)) ->
  fails_only F X (try_except m handler).
Proof.
  intros Hm Hh s. unfold try_except. specialize (Hm s).
  destruct (m s) as [[a | e arg | code] s']; [exact I | apply Hh | exact Hm].
Qed.

(** The handlers told apart by what the body can raise. *)
Lemma fails_try_except_from (G : exc -> Prop) (m : M A)
    (handler : exc -> string -> M A) :
  fails_only G X m ->
  (forall e arg, G e -> fails_only F X (handler e arg)) ->
  fails_only F X (try_except m handler).
Proof.
  intros Hm Hh s. unfold try_except. specialize (Hm s).
  destruct (m s) as [[a | e arg | code] s']; [exact I | by apply Hh | exact Hm].
Qed.

(** A handler for the class [cls] that can be reached. *)
Lemma fails_try_only cls (m : M A) (handler : exc -> string -> M A) :
  fails_only (fun e => e = cls \/ F e) X m ->
  (forall arg, fails_only F X (handler cls arg)) ->
  fails_only F X (try_except m (only cls handler)).
Proof.
  intros Hm Hh s. unfold try_except, only. specialize (Hm s).
  destruct (m s) as [[a | e arg | code] s']; [exact I | | exact Hm].
  destruct (decide (e = cls)) as [-> | Hne]; [apply Hh |].
  simpl in *. by destruct Hm.
Qed.

(** A handler for a class that the body never raises. *)
Lemma fails_try_only_dead cls (m : M A) (handler : exc -> string -> M A) :
  fails_only F X m -> ~ F cls ->
  fails_only F X (try_except m (only cls handler)).
Proof.
  intros Hm Hcls s. unfold try_except, only. specialize (Hm s).
  destruct (m s) as [[a | e arg | code] s']; [exact I | | exact Hm].
  destruct (decide (e = cls)) as [-> | Hne]; [done | exact Hm].
Qed.

(** [except:] also stops an exit. *)
Lemma fails_try_except_bare (m handler : M A) :
  fails_only F X handler -> fails_only F X (try_except_bare m handler).
Proof.
  intros Hh s. unfold try_except_bare.
  destruct (m s) as [[a | e arg | code] s']; [exact I | apply Hh | apply Hh].
Qed.

Lemma pure_ok (a : A) : pure_fails F (Ok a).
Proof. exact I. Qed.

Lemma pure_obind (o : outcome A) (k : A -> outcome B) :
  pure_fails F o -> (forall a, pure_fails F (k a)) -> pure_fails F (obind o k).
Proof. intros Ho Hk. destruct o; [apply Hk | exact Ho | exact Ho]. Qed.

End Failures.

Lemma fails_weaken {A} (F G : exc -> Prop) (X Y : Z -> Prop) (m : M A) :
  fails_only F X m -> (forall e, F e -> G e) -> (forall c, X c -> Y c) ->
  fails_only G Y m.
Proof.
  intros Hm HF HX s. specialize (Hm s).
  destruct (m s).1; [exact I | by apply HF | by apply HX].
Qed.

Lemma fails_run {A} F X (m : M A) s r s' :
  fails_only F X m -> m s = (r, s') ->
  match r with Ok _ => True | Raise e _ => F e | Exit code => X code end.
Proof. intros Hm Hrun. specialize (Hm s). by rewrite Hrun in Hm. Qed.

Lemma fails_getattr F X a : F AttributeError -> fails_only F X (getattr a).
Proof. intros HF s. unfold getattr. by destruct (attrs s a). Qed.

Lemma fails_setattr F X a v : fails_only F X (setattr a v).
Proof. by intros s. Qed.

Lemma fails_emit F X ev : fails_only F X (emit ev).
Proof. by intros s. Qed.

Lemma fails_as_path F X v : F TypeError -> fails_only F X (as_path v).
Proof. intros HF. destruct v; first [apply fails_ret | by apply fails_raise]. Qed.

Section Values.

Context (F : exc -> Prop) (HF : value_errors F).

Lemma fails_getitem v k : pure_fails F (Py.getitem v k).
Proof.
  destruct HF as (? & ? & ?). destruct v as [| | | | | d]; try done.
  simpl. by destruct (d !! k).
Qed.

Lemma fails_setitem v k x : pure_fails F (Py.setitem v k x).
Proof. destruct HF as (? & ? & ?). by destruct v. Qed.

Lemma fails_iter v : pure_fails F (Py.iter v).
Proof. destruct HF as (? & ? & ?). by destruct v. Qed.

Lemma fails_any v : pure_fails F (Py.any v).
Proof. destruct HF as (? & ? & ?). by destruct v. Qed.

Lemma fails_len v : pure_fails F (Py.len v).
Proof. destruct HF as (? & ? & ?). by destruct v. Qed.

Lemma fails_getitem_int v i : pure_fails F (Py.getitem_int v i).
Proof.
  destruct HF as (? & ? & ?). destruct v as [| | | t | l |]; try done; simpl.
  - by destruct (Py.index (Py.chars t) i).
  - by destruct (Py.index l i).
Qed.

Lemma fails_add_str v t : pure_fails F (Py.add_str v t).
Proof. destruct HF as (? & ? & ?). by destruct v. Qed.

Lemma fails_str_add t v : pure_fails F (Py.str_add t v).
Proof. destruct HF as (? & ? & ?). by destruct v. Qed.

Lemma fails_iadd_int v z : pure_fails F (Py.iadd_int v z).
Proof. destruct HF as (? & ? & ?). by destruct v. Qed.

Lemma fails_re_sub substitutions text :
  forall key, pure_fails F (Py.re_sub substitutions key text).
Proof.
  destruct HF as (? & ? & ?).
  induction text as [| c text IH]; intros [k |]; cbn [Py.re_sub]; try done.
  - destruct (Ascii.eqb c "%"); [| apply IH].
    destruct (String.eqb k "").
    + apply pure_obind; [apply IH | done].
    + destruct (substitutions !! k) as [[| | | v | |] |]; try done.
      apply pure_obind; [apply IH | done].
  - destruct (Ascii.eqb c "%"); [apply IH |].
    apply pure_obind; [apply IH | done].
Qed.

Lemma fails_tiered_loop tier0 tier1 Disks :
  forall tier0count tier1count tier_1_counter,
    pure_fails F (tiered_loop tier0 tier1 tier0count tier1count
                              tier_1_counter Disks).
Proof.
  induction Disks as [| disk rest IH]; intros c0 c1 k; cbn [tiered_loop];
    [done |].
  destruct (negb (c0 =? 0)); [| destruct (c1 >? 0)];
    repeat first [ apply pure_obind; [| intros ?] | apply fails_getitem_int
                 | apply fails_setitem | apply IH | apply pure_ok ].
Qed.

Lemma fails_sdb_loop the_disks Disks :
  forall counter, pure_fails F (sdb_loop the_disks counter Disks).
Proof.
  induction Disks as [| disk rest IH]; intros counter; cbn [sdb_loop];
    [done |].
  apply pure_obind; [apply fails_getitem_int | intros d].
  destruct (Py.eq_str d "/dev/sdb");
    repeat first [ apply pure_obind; [| intros ?] | apply fails_getitem_int
                 | apply fails_setitem | apply IH | apply pure_ok ].
Qed.

Lemma fails_plain_loop the_disks Disks :
  forall counter, pure_fails F (plain_loop the_disks counter Disks).
Proof.
  induction Disks as [| disk rest IH]; intros counter; cbn [plain_loop];
    [done |].
  repeat first [ apply pure_obind; [| intros ?] | apply fails_getitem_int
               | apply fails_setitem | apply IH | apply pure_ok ].
Qed.

End Values.

Lemma fails_validate_loop F found l :
  F DeviceValidationFailed -> pure_fails F (validate_loop found l).
Proof.
  intros HF. induction l as [| disk rest IH]; cbn [validate_loop]; [done |].
  by destruct (negb (Py.in_strs disk found)).
Qed.

(** Side conditions: the class at hand is one of those allowed. *)
Ltac allowed := cbn; auto.

Ltac fails_pure :=
  repeat first
    [ apply pure_ok
    | apply pure_obind; [| intros ?]
    | apply fails_getitem; (repeat split; allowed)
    | apply fails_setitem; (repeat split; allowed)
    | apply fails_iter; (repeat split; allowed)
    | apply fails_any; (repeat split; allowed)
    | apply fails_len; (repeat split; allowed)
    | apply fails_getitem_int; (repeat split; allowed)
    | apply fails_add_str; (repeat split; allowed)
    | apply fails_str_add; (repeat split; allowed)
    | apply fails_iadd_int; (repeat split; allowed)
    | apply fails_re_sub; (repeat split; allowed)
    | apply fails_tiered_loop; (repeat split; allowed)
    | apply fails_sdb_loop; (repeat split; allowed)
    | apply fails_plain_loop; (repeat split; allowed)
    | apply fails_validate_loop; allowed ].

Lemma fails_networks_loop F X l :
  value_errors F -> F AttributeError -> fails_only F X (networks_loop l).
Proof.
  intros HF Hattr. induction l as [| network rest IH]; simpl;
    [apply fails_ret |].
  repeat first [ apply fails_bind; [| intros ?]
               | apply fails_lift; by apply fails_setitem
               | by apply fails_getattr | apply fails_ret | exact IH ].
Qed.

Ltac fails_step :=
  first
    [ apply fails_bind; [| intros ?]
    | apply fails_ret | apply fails_ask | apply fails_setattr
    | apply fails_emit
    | apply fails_raise; solve [allowed]
    | apply fails_sys_exit; solve [allowed]
    | apply fails_getattr; solve [allowed]
    | apply fails_as_path; solve [allowed]
    | apply fails_lift; solve [fails_pure]
    | apply fails_networks_loop; [repeat split |]; solve [allowed]
    | apply fails_try_except_bare
    | apply fails_try_only;
      [| intros ?; solve [repeat (apply fails_raise; solve [allowed])] ]
    | apply fails_try_only_dead; [| solve [cbn; tauto] ]
    | apply fails_try_except; [| intros ? ?]
    | match goal with
      | |- fails_only _ _ (match ?x with _ => _ end) => destruct x
      end ].

Ltac fails :=
  unfold _pre_install_vsa, install_steps, _read_inputs, _read_network_input,
    _get_netmask_from_interface, _compute_gateway, _make_list_from_tiered,
    extend_disks, _create_installer_input_json, _initialize_default_json,
    _validate_disks, _discover_disks, for_in, _create_bridge,
    _create_storage_pool, _virtual_network_define,
    _virtual_storage_pool_define, _create_vsa_vm, _update_vsa_config,
    _read_configuration_input, _get_vsa_vm_status, _report_libvirt_error,
    _read_json, _do_operation, _vsa_domain_destroy, _vsa_network_destroy,
    _vsa_storage_pool_destroy, _roll_back_installation, rmtree,
    virt, open_w, write, read_text, utcnow, get_vsa_data, set_vsa_data,
    field2;
  repeat fails_step.

(** ** What each step of an installation can raise *)

Lemma read_inputs_fails H X : fails_only is_input_failure X (_read_inputs H).
Proof. fails. Qed.

Lemma wrapped_steps_fail H X :
  fails_only (fun e => e = DefaultJSONInitializationFailed) X
             (_initialize_default_json H) /\
  fails_only (fun e => e = BridgeCreationFailed) X (_create_bridge H) /\
  fails_only (fun e => e = StoragePoolCreationFailed) X
             (_create_storage_pool H) /\
  fails_only (fun e => e = UpdateConfigFailed) X (_update_vsa_config H).
Proof. repeat split; fails. Qed.


(** X6. [_read_inputs] never exits and raises nothing but the errors of
    reading the two configuration files, of the netmask and the gateway, of
    running get_devices.sh, and of values of the wrong shape.  It never
    raises [DiskFileError], nor [IOError]: its handler for [IOError] cannot
    be reached, because [_read_json] has turned the [IOError] of a missing
    disk file into [JsonParseException] before. *)
Theorem read_inputs_never_raises_disk_file_error H :
  fails_only is_input_failure (fun _ => False) (_read_inputs H).
Proof. apply read_inputs_fails. Qed.

Lemma install_steps_fails H X :
  fails_only (fun e => is_install_failure e \/ e = StoragePoolCreationFailed
                       \/ e = VMCreateFailed)
             X (install_steps H).
Proof.
  unfold install_steps.
  apply fails_bind;
    [apply (fails_weaken is_input_failure _ X X);
       [apply read_inputs_fails | by intros []; cbn; auto | done] |].
  intros _. apply fails_bind; [fails |]. intros _.
  destruct (wrapped_steps_fail H X) as (Hjson & Hbridge & Hpool & Hupdate).
  apply fails_bind;
    [apply (fails_weaken _ _ X X) with (1 := Hjson); [by intros ? -> ; cbn; auto | done] |].
  intros _. apply fails_bind;
    [apply (fails_weaken _ _ X X) with (1 := Hbridge); [by intros ? -> ; cbn; auto | done] |].
  intros _. apply fails_bind;
    [apply (fails_weaken _ _ X X) with (1 := Hpool); [by intros ? -> ; cbn; auto | done] |].
  intros _. unfold _create_vsa_vm.
  repeat first
    [ apply (fails_weaken _ _ X X) with (1 := Hupdate);
        [by intros ? -> ; cbn; auto | done]
    | fails_step ].
Qed.

(** X8. [install_vsa] ends the process with status 0 or 1 only, and the
    exceptions that can leave it are those of reading the inputs, of the
    status query, of the installer's default document, of the network, of
    the update of vsa_config.json and of the two teardown steps of a
    rollback.  [StoragePoolCreationFailed] and [VMCreateFailed] never leave
    it; neither do [DeviceValidationFailed], [DiskFileError] or
    [IOError]. *)
Theorem install_vsa_exits_with_0_or_1 H :
  fails_only is_install_failure (fun code => code = 0 \/ code = 1)
             (install_vsa H).
Proof.
  unfold install_vsa. apply fails_bind; [fails |]. intros _.
  apply (fails_try_except_from _ _
           (fun e => is_install_failure e \/ e = StoragePoolCreationFailed
                     \/ e = VMCreateFailed));
    [apply install_steps_fails |].
  intros e arg He. unfold install_handlers.
  destruct e; cbn in He;
    try (by destruct He as [[] | [? | ?]]);
    try (apply fails_raise; exact I); fails.
Qed.

(** X9. [destroy_vsa] never exits and never raises [DestroyFailed]: its
    handler for [IOError] cannot be reached.  What can leave it are the
    errors of reading vsa_config.json, of creating the directory of the pool
    and the three errors of the teardown steps. *)
Theorem destroy_vsa_never_raises_destroy_failed H :
  fails_only is_destroy_failure (fun _ => False) (destroy_vsa H).
Proof. unfold destroy_vsa. fails. Qed.

(** ** The appliance cannot be created: the second rollback *)

Lemma rollback_steps_in_turn H :
  extends (fun ev => is_pool_call ev = false) (_vsa_network_destroy H) /\
  extends (fun ev => is_domain_teardown ev = false) (_vsa_network_destroy H) /\
  extends (fun ev => is_domain_teardown ev = false)
          (_vsa_storage_pool_destroy H).
Proof. repeat split; ext. Qed.

(** X7. When the steps of the installation end in [VMCreateFailed],
    [install_vsa] tears the network down and then the storage pool, and
    exits with status 1 when both succeed.  When the network cannot be torn
    down, [NetworkDestroyFailed] leaves [install_vsa] in place of the exit
    and no call is made on the pool, which stays; when the pool cannot be
    torn down, [PoolDestroyFailed] leaves it.  In no case is a call made to
    destroy or undefine the domain. *)
Theorem vm_failure_rolls_network_and_pool_back H s0 s1 s2 (arg : string) :
  _pre_install_vsa H s0 = (Ok tt, s1) ->
  install_steps H s1 = (Raise VMCreateFailed arg, s2) ->
  (forall s3 s4,
     _vsa_network_destroy H s2 = (Ok tt, s3) ->
     _vsa_storage_pool_destroy H s3 = (Ok tt, s4) ->
     install_vsa H s0 = (Exit 1, s4) /\
     count is_domain_teardown (trace s4)
     = count is_domain_teardown (trace s2)) /\
  (forall e why s3,
     _vsa_network_destroy H s2 = (Raise e why, s3) ->
     install_vsa H s0 = (Raise NetworkDestroyFailed why, s3) /\
     count is_pool_call (trace s3) = count is_pool_call (trace s2) /\
     count is_domain_teardown (trace s3)
     = count is_domain_teardown (trace s2)) /\
  (forall s3 e why s4,
     _vsa_network_destroy H s2 = (Ok tt, s3) ->
     _vsa_storage_pool_destroy H s3 = (Raise e why, s4) ->
     install_vsa H s0 = (Raise PoolDestroyFailed why, s4) /\
     count is_domain_teardown (trace s4)
     = count is_domain_teardown (trace s2)).
Proof.
  intros Hpre Hsteps.
  destruct (rollback_steps_in_turn H) as (Pn & Dn & Dp).
  assert (Hrun : install_vsa H s0 = install_handlers H VMCreateFailed arg s2).
  { unfold install_vsa, bind, try_except. by rewrite Hpre, Hsteps. }
  rewrite Hrun. unfold install_handlers, _roll_back_installation.
  split; [| split].
  - intros s3 s4 Hnet Hpool. split.
    + unfold bind. by rewrite Hnet, Hpool.
    + by rewrite (count_kept _ _ _ _ _ Dp Hpool), (count_kept _ _ _ _ _ Dn Hnet).
  - intros e why s3 Hnet.
    pose proof (network_destroy_raises_only _ _ _ _ _ Hnet) as ->.
    split; [| split].
    + unfold bind. by rewrite Hnet.
    + by rewrite (count_kept _ _ _ _ _ Pn Hnet).
    + by rewrite (count_kept _ _ _ _ _ Dn Hnet).
  - intros s3 e why s4 Hnet Hpool.
    pose proof (pool_destroy_raises_only _ _ _ _ _ Hpool) as ->.
    split.
    + unfold bind. by rewrite Hnet, Hpool.
    + by rewrite (count_kept _ _ _ _ _ Dp Hpool), (count_kept _ _ _ _ _ Dn Hnet).
Qed.

(** The installer of the laboratory fails; network and pool can be torn
    down. *)
Lemma vm_failure_witness :
  (install_vsa Lab.installer_fails (Lab.fresh (PBool false) PNone)).1 = Exit 1.
Proof.
  destruct (vm_failure_rolls_network_and_pool_back
              Lab.installer_fails
              (Lab.fresh (PBool false) PNone)
              (_pre_install_vsa Lab.installer_fails
                 (Lab.fresh (PBool false) PNone)).2
              (install_steps Lab.installer_fails
                 (_pre_install_vsa Lab.installer_fails
                    (Lab.fresh (PBool false) PNone)).2).2
              "VSA installation failed")
    as (Hboth & _ & _); [vm_compute; reflexivity | vm_compute; reflexivity |].
  destruct (Hboth
              (_vsa_network_destroy Lab.installer_fails
                 (install_steps Lab.installer_fails
                    (_pre_install_vsa Lab.installer_fails
                       (Lab.fresh (PBool false) PNone)).2).2).2
              (_vsa_storage_pool_destroy Lab.installer_fails
                 (_vsa_network_destroy Lab.installer_fails
                    (install_steps Lab.installer_fails
                       (_pre_install_vsa Lab.installer_fails
                          (Lab.fresh (PBool false) PNone)).2).2).2).2)
    as [Hexit _]; [vm_compute; reflexivity | vm_compute; reflexivity |].
  by rewrite Hexit.
Defined.

(** The installer fails, the network is torn down, and the pool, which
    cannot be destroyed, is left behind. *)
Example pool_is_left_behind :
  (install_vsa Lab.installer_fails_pool_stays
     (Lab.fresh (PBool false) PNone)).1
  = Raise PoolDestroyFailed "Failed to destroy and undefine the storage pool".
Proof. vm_compute. reflexivity. Qed.

(** ** The disks *)

Lemma split_length sep (text : string) : (1 <= length (Py.split sep text))%nat.
Proof.
  induction text as [| c text IH]; cbn [Py.split]; [simpl; lia |].
  destruct (Ascii.eqb c sep); [simpl; lia |].
  destruct (Py.split sep text); simpl in *; lia.
Qed.

(** X1. Without a disk file the disks are the fields of the output of
    get_devices.sh, and there is always at least one: an output without a
    device still gives one field, so that [self.total_disks] is never 0
    after a discovery.  When the script cannot be run its [OSError] leaves
    [_read_inputs] as it is. *)
Theorem discovery_finds_at_least_one_disk H s0 s1 f s2 df (dir : string) :
  _read_network_input H s0 = (Ok tt, s1) ->
  attrs s1 VSA_CONFIG_FILE = Some f ->
  _read_configuration_input H f s1 = (Ok tt, s2) ->
  attrs s2 disk_file = Some df -> Py.truthy df = false ->
  attrs s2 CONFIG_DIR = Some (PStr dir) ->
  let script := dir +:+ "/scripts/get_devices.sh" in
  (forall out, h_probe H (trace s2) script = Some out ->
     let found := Py.split " " out in
     (_read_inputs H s0).1 = Ok tt /\
     attrs (_read_inputs H s0).2 disks = Some (PList (PStr <$> found)) /\
     attrs (_read_inputs H s0).2 total_disks
     = Some (PInt (Z.of_nat (length found))) /\
     1 <= Z.of_nat (length found) /\
     trace (_read_inputs H s0).2 = EvProbe script :: trace s2) /\
  (h_probe H (trace s2) script = None ->
   _read_inputs H s0
   = (Raise OSError "cannot execute get_devices.sh",
      {| attrs := attrs s2; trace := EvProbe script :: trace s2 |})).
Proof.
  intros Hnet Hfile Hconfig Hdf Hfalse Hdir script. subst script. split.
  - intros out Hout found. subst found.
    destruct (_read_inputs H s0) as [r after] eqn:Hrun. revert Hrun.
    unfold _read_inputs, try_except, _discover_disks. mgo.
    rewrite length_fmap.
    intros [= <- <-]. cbn. repeat split.
    pose proof (split_length " " out). lia.
  - intros Hnone.
    unfold _read_inputs, try_except, _discover_disks. mgo. reflexivity.
Qed.

(** get_devices.sh prints nothing, and one disk is counted. *)
Lemma discovery_witness :
  attrs (_read_inputs Lab.no_spare_disk (Lab.fresh (PBool false) PNone)).2
        total_disks = Some (PInt 1).
Proof.
  destruct (discovery_finds_at_least_one_disk
              Lab.no_spare_disk (Lab.fresh (PBool false) PNone)
              (_read_network_input Lab.no_spare_disk
                 (Lab.fresh (PBool false) PNone)).2
              (PStr "/etc/vsa/vsa_config.json")
              (_read_configuration_input Lab.no_spare_disk
                 (PStr "/etc/vsa/vsa_config.json")
                 (_read_network_input Lab.no_spare_disk
                    (Lab.fresh (PBool false) PNone)).2).2
              PNone "/etc/vsa")
    as [Hfound _];
    [vm_compute; reflexivity | reflexivity | vm_compute; reflexivity
    | reflexivity | reflexivity | reflexivity |].
  destruct (Hfound "" ltac:(reflexivity)) as (_ & _ & Htotal & _).
  exact Htotal.
Defined.

Lemma validate_loop_found (found : list string) :
  validate_loop found (PStr <$> found) = Ok tt.
Proof.
  destruct (validate_loop_cases found (PStr <$> found))
    as [[Hok _] | [_ (d & Hin & Hd)]]; [exact Hok | exfalso].
  apply list_elem_of_fmap in Hin as (p & -> & Hp).
  assert (Hfound : Py.in_strs (PStr p) found = true)
    by (apply in_strs_spec; eauto).
  congruence.
Qed.

(** X17. The disks that were discovered pass the validation as long as the
    script gives the same output again: [_validate_disks] returns, having
    run the script once more and changed no attribute. *)
Theorem discovered_disks_pass_validation H s (dir out : string) :
  attrs s CONFIG_DIR = Some (PStr dir) ->
  h_probe H (trace s) (dir +:+ "/scripts/get_devices.sh") = Some out ->
  attrs s disks = Some (PList (PStr <$> Py.split " " out)) ->
  _validate_disks H s
  = (Ok tt, {| attrs := attrs s;
               trace := EvProbe (dir +:+ "/scripts/get_devices.sh")
                          :: trace s |}).
Proof.
  intros Hdir Hout Hdisks. unfold _validate_disks.
  erewrite run_bind_ok by (by apply discover_disks_run).
  mgo. unfold lift. by rewrite validate_loop_found.
Qed.

(** The two disks of the laboratory. *)
Lemma discovered_disks_witness :
  (_validate_disks Lab.two_disks
     (Lab.resolved Lab.two_disks (PBool false) PNone)).1 = Ok tt.
Proof.
  by rewrite (discovered_disks_pass_validation Lab.two_disks
                (Lab.resolved Lab.two_disks (PBool false) PNone)
                "/etc/vsa" "/dev/sdb /dev/sdc"
                ltac:(reflexivity) ltac:(reflexivity) ltac:(reflexivity)).
Defined.

(** X3. [_make_list_from_tiered] keeps both lists of the disk file as
    [self.tier0List] and [self.tier1List], but [self.disks] gets a tier only
    if [any] finds a true element in it: a tier of empty strings is kept as
    a list and left out of the disks.  A disk file without "Tier 0" or
    without "Tier 1" ends the method in a [KeyError]; in the second case the
    first tier has already been taken over. *)
Theorem tiers_without_a_true_entry_are_left_out
    s (tiered : gmap string pyval) :
  attrs s tiered_disks = Some (PDict tiered) ->
  (tiered !! "Tier 0" = None ->
   (_make_list_from_tiered s).1 = Raise KeyError "Tier 0") /\
  (forall t0, tiered !! "Tier 0" = Some (PList t0) ->
     tiered !! "Tier 1" = None ->
     (_make_list_from_tiered s).1 = Raise KeyError "Tier 1" /\
     attrs (_make_list_from_tiered s).2 disks = Some (PList (tier_kept t0))) /\
  (forall t0 t1, tiered !! "Tier 0" = Some (PList t0) ->
     tiered !! "Tier 1" = Some (PList t1) ->
     (_make_list_from_tiered s).1
     = Ok (PList (tier_kept t0 ++ tier_kept t1)) /\
     attrs (_make_list_from_tiered s).2 disks
     = Some (PList (tier_kept t0 ++ tier_kept t1)) /\
     attrs (_make_list_from_tiered s).2 tier0List = Some (PList t0) /\
     attrs (_make_list_from_tiered s).2 tier1List = Some (PList t1)).
Proof.
  intros Htiered. split; [| split].
  - intros Hnone. unfold _make_list_from_tiered. mgo. reflexivity.
  - intros t0 H0 Hnone.
    destruct (_make_list_from_tiered s) as [r after] eqn:Hrun. revert Hrun.
    unfold _make_list_from_tiered, extend_disks, Py.any, tier_kept. mgo.
    destruct (existsb Py.truthy t0); mgo; intros [= <- <-]; by split.
  - intros t0 t1 H0 H1.
    destruct (_make_list_from_tiered s) as [r after] eqn:Hrun. revert Hrun.
    unfold _make_list_from_tiered, extend_disks, Py.any, tier_kept. mgo.
    destruct (existsb Py.truthy t0); mgo;
      (destruct (existsb Py.truthy t1); mgo); intros [= <- <-];
      rewrite ?app_nil_r; by repeat split.
Qed.

(** A disk file whose first tier names no device. *)
Lemma tiers_witness :
  (_make_list_from_tiered
     {| attrs := fun a =>
          match a with
          | tiered_disks =>
              Some (Lab.dict [("Tier 0", PList [PStr ""; PStr ""]);
                              ("Tier 1", PList [PStr "/dev/sdd"])])
          | _ => None
          end;
        trace := [] |}).1
  = Ok (PList [PStr "/dev/sdd"]).
Proof.
  destruct (tiers_without_a_true_entry_are_left_out
              {| attrs := fun a =>
                   match a with
                   | tiered_disks =>
                       Some (Lab.dict [("Tier 0", PList [PStr ""; PStr ""]);
                                       ("Tier 1", PList [PStr "/dev/sdd"])])
                   | _ => None
                   end;
                 trace := [] |}
              (list_to_map [("Tier 0", PList [PStr ""; PStr ""]);
                            ("Tier 1", PList [PStr "/dev/sdd"])])
              ltac:(reflexivity)) as (_ & _ & Hboth).
  destruct (Hboth [PStr ""; PStr ""] [PStr "/dev/sdd"]
              ltac:(reflexivity) ltac:(reflexivity)) as [Hrun _].
  exact Hrun.
Defined.

(** ** The networks of the document *)

Lemma networks_loop_run
    (nets : list (gmap string pyval)) s (ip mask gateway name : pyval) :
  attrs s vsa_ip = Some ip ->
  attrs s v_netmask = Some mask ->
  attrs s v_gateway = Some gateway ->
  attrs s v_network_name = Some name ->
  networks_loop (PDict <$> nets) s
  = (Ok (PDict <$> (with_settings ip mask gateway name <$> nets)), s).
Proof.
  intros Hip Hmask Hgateway Hname.
  induction nets as [| network rest IH]; [reflexivity |].
  rewrite !fmap_cons. unfold networks_loop; fold networks_loop. mgo.
  reflexivity.
Qed.

(** X20. Every network of the document is given the same settings: no
    DHCP, the address of the appliance, the netmask and the gateway that
    were computed, and the name of the virtual network as its interface;
    the loop changes no attribute and adds no event. *)
Theorem every_network_gets_the_same_settings
    (nets : list (gmap string pyval)) s (ip mask gateway name : pyval) :
  attrs s vsa_ip = Some ip ->
  attrs s v_netmask = Some mask ->
  attrs s v_gateway = Some gateway ->
  attrs s v_network_name = Some name ->
  (networks_loop (PDict <$> nets) s).1
  = Ok (PDict <$> (with_settings ip mask gateway name <$> nets)) /\
  (networks_loop (PDict <$> nets) s).2 = s /\
  forall network, network ∈ with_settings ip mask gateway name <$> nets ->
    network !! "DHCP" = Some (PInt 0) /\ network !! "IPAddress" = Some ip /\
    network !! "Subnet" = Some mask /\ network !! "Gateway" = Some gateway /\
    network !! "NetworkInterface" = Some name.
Proof.
  intros Hip Hmask Hgateway Hname.
  rewrite (networks_loop_run nets s ip mask gateway name) by done.
  split; [reflexivity | split; [reflexivity |]].
  intros network (d & -> & _)%list_elem_of_fmap. unfold with_settings.
  repeat split;
    repeat (rewrite lookup_insert_ne by done); by rewrite lookup_insert_eq.
Qed.

(** Two networks in the document of the laboratory. *)
Lemma networks_witness :
  (networks_loop (PDict <$> replicate 2 (list_to_map [("DHCP", PInt 1)]))
     (Lab.resolved Lab.two_disks (PBool false) PNone)).1
  = Ok (PDict <$>
          (with_settings (PStr "10.0.0.5") (PStr "255.255.255.0")
             (PStr "10.0.0.1") (PStr "vsa-network")
           <$> replicate 2 (list_to_map [("DHCP", PInt 1)]))).
Proof.
  apply (every_network_gets_the_same_settings
           (replicate 2 (list_to_map [("DHCP", PInt 1)]))
           (Lab.resolved Lab.two_disks (PBool false) PNone)
           (PStr "10.0.0.5") (PStr "255.255.255.0") (PStr "10.0.0.1")
           (PStr "vsa-network")); reflexivity.
Defined.

(** ** What the caller is told when the pool cannot be defined *)

(** X19. When the template of the pool was read, filled in and written,
    and [virsh pool-define] then fails, the error that leaves
    [_create_storage_pool] does not carry the text "Creation of virtual
    storage pool failed" with which [_virtual_storage_pool_define] raised
    it: the handler raises [StoragePoolCreationFailed] anew with
    [e.message], which is the text of the class, "An unknown exception
    while parsing default Json".  Neither [virsh pool-start] nor
    [virsh pool-autostart] is run. *)
Theorem pool_define_failure_is_reported_with_the_class_text
    H s (dir template xml : string) (pool location : pyval) :
  attrs s CONFIG_DIR = Some (PStr dir) ->
  h_read_text H (trace s) (dir +:+ "/data/storage_pool_template.xml")
  = Some template ->
  attrs s os_image_storagepool = Some pool ->
  attrs s pool_location = Some location ->
  Py.re_sub (<["POOL_NAME" := pool]> (<["POOL_PATH" := location]> ∅))
            None template = Ok xml ->
  let t1 := EvReadText (dir +:+ "/data/storage_pool_template.xml")
              :: trace s in
  let t2 := EvOpenW "storage_pool_vsa.xml" :: t1 in
  let t3 := EvWriteText "storage_pool_vsa.xml" xml :: t2 in
  let rc := h_sh H t3 "virsh pool-define storage_pool_vsa.xml" in
  h_open_w H t1 "storage_pool_vsa.xml" = true ->
  h_write H t2 "storage_pool_vsa.xml" = true ->
  rc <> 0 ->
  _create_storage_pool H s
  = (Raise StoragePoolCreationFailed
           "An unknown exception while parsing default Json",
     {| attrs := attrs s;
        trace := EvSh "virsh pool-define storage_pool_vsa.xml" rc :: t3 |}).
Proof.
  intros Hdir Htemplate Hpool Hlocation Hxml t1 t2 t3 rc Hopen Hwrite Hrc.
  subst rc t3 t2 t1. apply Z.eqb_neq in Hrc.
  unfold _create_storage_pool, _virtual_storage_pool_define, try_except.
  mgo.
  change ("virsh pool-define " +:+ "storage_pool_vsa.xml")
    with "virsh pool-define storage_pool_vsa.xml".
  rewrite str_int_zero, Hrc. reflexivity.
Qed.

(** The pool of the laboratory cannot be defined. *)
Lemma pool_define_failure_witness :
  (_create_storage_pool Lab.pool_fails
     (steps_before_pool Lab.pool_fails
        (Lab.fresh (PBool false) PNone)).2).1
  = Raise StoragePoolCreationFailed
          "An unknown exception while parsing default Json".
Proof.
  by rewrite (pool_define_failure_is_reported_with_the_class_text
                Lab.pool_fails
                (steps_before_pool Lab.pool_fails
                   (Lab.fresh (PBool false) PNone)).2
                "/etc/vsa" Lab.storage_pool_template
                "<pool type='dir'><name>vsa-storage-pool</name><path>/mnt/state/vsa</path></pool>"
                (PStr "vsa-storage-pool") (PStr "/mnt/state/vsa")
                ltac:(reflexivity) ltac:(reflexivity) ltac:(reflexivity)
                ltac:(reflexivity) ltac:(vm_compute; reflexivity)
                ltac:(reflexivity) ltac:(reflexivity)
                ltac:(vm_compute; discriminate)).
Defined.

(** ** The document of an installation without auto-tiering *)

(** X21. Without auto-tiering, with the disks that were discovered and a
    document of the installer that has no more entries than there are
    disks: [_initialize_default_json] reads default-input.json, runs
    get_devices.sh once more, and writes the document back with the host
    name and the pool of vsa_config.json, every network with the settings
    of the appliance and the disks placed in order; the other items of the
    document are kept and no attribute changes. *)
Theorem document_is_filled_and_written
    H s (doc : gmap string pyval) (nets Ds : list (gmap string pyval))
    (name pool ip mask gateway network ao : pyval) (dir out : string) :
  attrs s host_name = Some name ->
  attrs s os_image_storagepool = Some pool ->
  attrs s vsa_ip = Some ip ->
  attrs s v_netmask = Some mask ->
  attrs s v_gateway = Some gateway ->
  attrs s v_network_name = Some network ->
  attrs s is_AO_enabled = Some ao -> Py.truthy ao = false ->
  attrs s CONFIG_DIR = Some (PStr dir) ->
  attrs s disks = Some (PList (PStr <$> Py.split " " out)) ->
  h_open_json H (trace s) "default-input.json" = Parsed (PDict doc) ->
  doc !! "Networks" = Some (PList (PDict <$> nets)) ->
  doc !! "Disks" = Some (PList (PDict <$> Ds)) ->
  (length Ds <= length (Py.split " " out))%nat ->
  let t1 := EvOpenJson "default-input.json" :: trace s in
  let t2 := EvProbe (dir +:+ "/scripts/get_devices.sh") :: t1 in
  let t3 := EvOpenW "default-input.json" :: t2 in
  h_probe H t1 (dir +:+ "/scripts/get_devices.sh") = Some out ->
  h_open_w H t2 "default-input.json" = true ->
  h_write H t3 "default-input.json" = true ->
  let written :=
    <["Disks" := PList (PDict <$>
                          zip_with (fun d location => placed location d) Ds
                                   (PStr <$> Py.split " " out))]>
      (<["Networks" := PList (PDict <$> (with_settings ip mask gateway network
                                           <$> nets))]>
         (<["OSImageStoragePool" := pool]> (<["HostName" := name]> doc))) in
  _initialize_default_json H s
  = (Ok tt,
     {| attrs := attrs s;
        trace := EvWriteJson "default-input.json" (PDict written) :: t3 |}).
Proof.
  intros Hname Hpool Hip Hmask Hgateway Hnetwork Hao Hfalse Hdir Hdisks
    Hjson Hnets HDs Hlen t1 t2 t3 Hprobe Hopen Hwrite written.
  subst written t3 t2 t1.
  unfold _initialize_default_json, try_except, for_in, _validate_disks.
  mgo. do 2 (rewrite lookup_insert_ne by done). rewrite Hnets. mgo.
  erewrite run_bind_ok by (by apply networks_loop_run). mgo.
  erewrite run_bind_ok by (by apply discover_disks_run). mgo.
  rewrite validate_loop_found. mgo.
  do 3 (rewrite lookup_insert_ne by done). rewrite HDs. mgo.
  change 0 with (Z.of_nat 0).
  rewrite plain_loop_run by (rewrite length_fmap; simpl; lia).
  rewrite drop_0. mgo. reflexivity.
Qed.

(** The two disks of the laboratory, without auto-tiering. *)
Lemma document_witness :
  disks_of (written_document Lab.two_disks
              (Lab.resolved Lab.two_disks (PBool false) PNone))
  = Ok (PList [PDict (placed (PStr "/dev/sdb") Lab.blank_disk);
               PDict (placed (PStr "/dev/sdc") Lab.blank_disk)]).
Proof.
  unfold written_document.
  rewrite (document_is_filled_and_written Lab.two_disks
             (Lab.resolved Lab.two_disks (PBool false) PNone)
             (list_to_map
                [("HostName", PStr ""); ("OSImageStoragePool", PStr "");
                 ("Networks", PList [Lab.dict [("DHCP", PInt 1)]]);
                 ("Disks", PList (replicate 2 (PDict Lab.blank_disk)))])
             [list_to_map [("DHCP", PInt 1)]]
             (replicate 2 Lab.blank_disk)
             (PStr "vsa1") (PStr "vsa-storage-pool") (PStr "10.0.0.5")
             (PStr "255.255.255.0") (PStr "10.0.0.1") (PStr "vsa-network")
             (PBool false) "/etc/vsa" "/dev/sdb /dev/sdc");
    reflexivity.
Defined.
